(** * scales: linear, rastered, logarithmic and no-op scales

    A shallow embedding of the scale library (index.ts) and the laws its
    specification states about it.

    Number model.  A JavaScript [number] is modelled as a real number and
    every arithmetic operation as the exact operation on reals, which is the
    reading the laws are stated in ("exact equality in real arithmetic").
    Rounding error of binary64, [NaN] and the infinities are outside this
    model: a law that divides by a range or takes a logarithm carries the
    hypothesis that keeps the operation inside its domain (range not zero,
    argument of [Math.log10] positive).

    What depends on [NaN] or on rounding is stated over a second embedding,
    [Binary64], in which a [number] is a binary64 float and the operations
    are those of IEEE 754: the clamped decorator, whose [Math.max] and
    [Math.min] are exact there, and the linear scale, to evaluate it. *)

From Stdlib Require Import Reals R_Ifp Lra Lia ZArith.
From Stdlib Require Floats.
Import PrimFloat.PrimFloatNotations.

Number Notation PrimFloat.float PrimFloat.parser PrimFloat.printer : float_scope.
Set Warnings "-inexact-float".

Open Scope R_scope.

(** ** Host primitives *)

Module Math.

(** [Math.max] and [Math.min] on two arguments. *)
Definition max (x y : R) : R := Rmax x y.
Definition min (x y : R) : R := Rmin x y.

(** [Math.round]: the integer closest to [x]; of two equally close
    integers the one closer to plus infinity (ECMAScript, Math.round). *)
Definition round (x : R) : R := IZR (Int_part (x + / 2)).

(** [Math.sign]: 1, -1 or 0. *)
Definition sign (x : R) : R :=
  if Rlt_dec 0 x then 1 else if Rlt_dec x 0 then -1 else 0.

(** [Math.log10] on its domain, the positive numbers.  For [x <= 0] the
    source returns [NaN] or [-Infinity], which a real cannot stand for, and
    the value below ([ln] is 0 there) means nothing: a statement about the
    code only uses [log10 x] under [0 < x]. *)
Definition log10 (x : R) : R := ln x / ln 10.

(** [Math.pow] for a positive base. *)
Definition pow (b e : R) : R := Rpower b e.

End Math.

(** ** The data model *)

Definition ToRatio := R -> R.
Definition ToAbsolute := R -> R.

(** What [convertTo] and [applyDeltaTo] read of the scale they are handed:
    its bounds and its two conversions.  The [Scale] type of the source
    refers to itself in the argument of these two methods; the record below
    gives them this view as argument type, and [view] passes a scale. *)
Record ScaleView : Type := mkView {
  vmin : R;
  vmax : R;
  vtoRatio : ToRatio;
  vtoAbsolute : ToAbsolute
}.

Module Scale.

Record t : Type := mk {
  min : R;
  max : R;
  toRatio : ToRatio;
  toAbsolute : ToAbsolute;
  applyDeltaTo : ScaleView -> R -> R -> R;
  convertTo : ScaleView -> R -> R
}.

End Scale.

Definition view (s : Scale.t) : ScaleView :=
  mkView (Scale.min s) (Scale.max s) (Scale.toRatio s) (Scale.toAbsolute s).

(** An optional boolean parameter ([inverted?: boolean]): omitted is
    [None], and [if (inverted)] tests [truthy]. *)
Definition truthy (b : option bool) : bool :=
  match b with
  | Some true => true
  | _ => false
  end.

(** ** The clamped decorator *)

Definition clampedToRatio (value : R) (toRatio : ToRatio) : R :=
  Math.max 0 (Math.min (toRatio value) 1).

Definition clampedToAbsolute (ratio min max : R) (toAbsolute : ToAbsolute) : R :=
  Math.max min (Math.min (toAbsolute ratio) max).

(** [{...scale, toRatio: ..., toAbsolute: ...}]: the four other fields are
    those of [scale]. *)
Definition clamped (scale : Scale.t) : Scale.t :=
  let min := Scale.min scale in
  let max := Scale.max scale in
  let toRatio := Scale.toRatio scale in
  let toAbsolute := Scale.toAbsolute scale in
  {| Scale.min := Scale.min scale;
     Scale.max := Scale.max scale;
     Scale.toRatio := fun v => clampedToRatio v toRatio;
     Scale.toAbsolute := fun r => clampedToAbsolute r min max toAbsolute;
     Scale.applyDeltaTo := Scale.applyDeltaTo scale;
     Scale.convertTo := Scale.convertTo scale |}.

(** ** The shared cross-scale operations *)

Definition convertScaleTo (otherScale : ScaleView) (a : R) (toRatio : ToRatio) : R :=
  let ratio := toRatio a in
  vtoAbsolute otherScale ratio.

Definition applyDeltaToScale (otherScale : ScaleView) (delta otherCurrent : R)
    (toAbsolute : ToAbsolute) (toRatio : ToRatio) : R :=
  let currentRatio := vtoRatio otherScale otherCurrent in
  let currentAbs := toAbsolute currentRatio in
  let newAbs := currentAbs + delta in
  let newRatio := toRatio newAbs in
  vtoAbsolute otherScale newRatio.

(** ** The constructors *)

Definition linearScale (min max : R) (inverted : option bool) : Scale.t :=
  let range := max - min in
  let toRatio := fun a : R =>
    let r := (a - min) / range in
    if truthy inverted then 1 - r else r in
  let toAbsolute := fun r : R =>
    if truthy inverted then min + (1 - r) * range else min + r * range in
  let convertTo := fun (otherScale : ScaleView) (a : R) =>
    convertScaleTo otherScale a toRatio in
  let applyDeltaTo := fun (otherScale : ScaleView) (delta otherCurrent : R) =>
    applyDeltaToScale otherScale delta otherCurrent toAbsolute toRatio in
  Scale.mk min max toRatio toAbsolute applyDeltaTo convertTo.

Definition rasteredLinearScale (min max stepSize : R) (inverted : option bool) : Scale.t :=
  let delegate := linearScale min max inverted in
  let toRatio := fun a : R =>
    let rastered := Math.round (a / stepSize) * stepSize in
    Scale.toRatio delegate rastered in
  let toAbsolute := fun r : R =>
    let a := Scale.toAbsolute delegate r in
    Math.round (a / stepSize) * stepSize in
  let convertTo := fun (otherScale : ScaleView) (a : R) =>
    convertScaleTo otherScale a toRatio in
  let applyDeltaTo := fun (otherScale : ScaleView) (delta otherCurrent : R) =>
    applyDeltaToScale otherScale delta otherCurrent toAbsolute toRatio in
  Scale.mk min max toRatio toAbsolute applyDeltaTo convertTo.

Definition logarithmicScale (min max : R) (inverted : option bool) : Scale.t :=
  let sign := Math.sign min in
  let logMin := if Rlt_dec sign 0 then Math.log10 (sign * max) else Math.log10 (sign * min) in
  let logMax := if Rlt_dec sign 0 then Math.log10 (sign * min) else Math.log10 (sign * max) in
  let logRange := logMax - logMin in
  let toRatio := fun a : R =>
    let logAbs := Math.log10 (sign * a) in
    let r := (logAbs - logMin) / logRange in
    if truthy inverted then 1 - r else r in
  let toAbsolute := fun r : R =>
    if truthy inverted then
      let logAbs := logMin + (1 - r) * logRange in
      sign * Math.pow 10 logAbs
    else
      let logAbs := logMin + r * logRange in
      sign * Math.pow 10 logAbs in
  let convertTo := fun (otherScale : ScaleView) (a : R) =>
    convertScaleTo otherScale a toRatio in
  let applyDeltaTo := fun (otherScale : ScaleView) (delta otherCurrent : R) =>
    applyDeltaToScale otherScale delta otherCurrent toAbsolute toRatio in
  Scale.mk min max toRatio toAbsolute applyDeltaTo convertTo.

(** The no-op scale has the four operations and no bounds. *)
Module Noop.

Record t : Type := mk {
  toRatio : R -> R;
  toAbsolute : R -> R;
  convertTo : ScaleView -> R -> R;
  applyDeltaTo : ScaleView -> R -> R -> R
}.

End Noop.

Definition noopScale : Noop.t :=
  {| Noop.toRatio := fun v => v;
     Noop.toAbsolute := fun v => v;
     Noop.convertTo := fun _other v => v;
     Noop.applyDeltaTo := fun _other d c => c + d |}.

(** The snapping step of the rastered scale, [Math.round(a / stepSize) *
    stepSize], which the source writes out in [toRatio] and in
    [toAbsolute]. *)
Definition rastered (stepSize a : R) : R :=
  Math.round (a / stepSize) * stepSize.

(** [x] and [y] differ by at most [eps]. *)
Definition approx (eps x y : R) : Prop := Rabs (x - y) <= eps.

(** The tolerance the specification names for "approximately equal". *)
Definition tolerance : R := / 10 ^ 9.

(** The scales of the reference scenario of the README and of the example
    script. *)
Definition linear : Scale.t := linearScale 0 100 None.
Definition logarithmic : Scale.t := logarithmicScale (-1000) (-1) None.

(** The two conversions of the example script, between [linear] and
    [logarithmic]. *)
Definition toLog (val : R) : R := Scale.convertTo linear (view logarithmic) val.
Definition fromLog (val : R) : R := Scale.convertTo logarithmic (view linear) val.

(** The no-op converter: a pair of identities. *)
Module Converter.

Record t : Type := mk {
  toInternal : R -> R;
  toExternal : R -> R
}.

End Converter.

Definition noopScaleConverter : Converter.t :=
  {| Converter.toInternal := fun v => v;
     Converter.toExternal := fun v => v |}.

(** ** The clamped decorator and the linear scale in binary64 *)

Module Binary64.

Definition number : Set := PrimFloat.float.

(** [x] is not [NaN]. *)
Definition is_number (x : number) : Prop := PrimFloat.is_nan x = false.

(** [x <= y] and [x < y] as the comparisons of the language decide them;
    both are false as soon as one side is [NaN]. *)
Definition le (x y : number) : Prop := (x <=? y)%float = true.
Definition lt (x y : number) : Prop := (x <? y)%float = true.

Module Math.

(** [Math.max] on two arguments: [NaN] if either is, else the larger, and
    [+0] rather than [-0]. *)
Definition max (x y : number) : number :=
  if (PrimFloat.is_nan x || PrimFloat.is_nan y)%bool then PrimFloat.nan
  else if (x <? y)%float then y
  else if (y <? x)%float then x
  else if PrimFloat.get_sign x then y else x.

(** [Math.min] on two arguments: [NaN] if either is, else the smaller, and
    [-0] rather than [+0]. *)
Definition min (x y : number) : number :=
  if (PrimFloat.is_nan x || PrimFloat.is_nan y)%bool then PrimFloat.nan
  else if (x <? y)%float then x
  else if (y <? x)%float then y
  else if PrimFloat.get_sign x then x else y.

End Math.

Definition ToRatio := number -> number.
Definition ToAbsolute := number -> number.

Record ScaleView : Type := mkView {
  vmin : number;
  vmax : number;
  vtoRatio : ToRatio;
  vtoAbsolute : ToAbsolute
}.

Module Scale.

Record t : Type := mk {
  min : number;
  max : number;
  toRatio : ToRatio;
  toAbsolute : ToAbsolute;
  applyDeltaTo : ScaleView -> number -> number -> number;
  convertTo : ScaleView -> number -> number
}.

End Scale.

Definition view (s : Scale.t) : ScaleView :=
  mkView (Scale.min s) (Scale.max s) (Scale.toRatio s) (Scale.toAbsolute s).

Definition clampedToRatio (value : number) (toRatio : ToRatio) : number :=
  Math.max 0%float (Math.min (toRatio value) 1%float).

Definition clampedToAbsolute (ratio min max : number) (toAbsolute : ToAbsolute)
    : number :=
  Math.max min (Math.min (toAbsolute ratio) max).

Definition clamped (scale : Scale.t) : Scale.t :=
  let min := Scale.min scale in
  let max := Scale.max scale in
  let toRatio := Scale.toRatio scale in
  let toAbsolute := Scale.toAbsolute scale in
  {| Scale.min := Scale.min scale;
     Scale.max := Scale.max scale;
     Scale.toRatio := fun v => clampedToRatio v toRatio;
     Scale.toAbsolute := fun r => clampedToAbsolute r min max toAbsolute;
     Scale.applyDeltaTo := Scale.applyDeltaTo scale;
     Scale.convertTo := Scale.convertTo scale |}.

Definition convertScaleTo (otherScale : ScaleView) (a : number)
    (toRatio : ToRatio) : number :=
  let ratio := toRatio a in
  vtoAbsolute otherScale ratio.

Definition applyDeltaToScale (otherScale : ScaleView)
    (delta otherCurrent : number) (toAbsolute : ToAbsolute)
    (toRatio : ToRatio) : number :=
  let currentRatio := vtoRatio otherScale otherCurrent in
  let currentAbs := toAbsolute currentRatio in
  let newAbs := (currentAbs + delta)%float in
  let newRatio := toRatio newAbs in
  vtoAbsolute otherScale newRatio.

Definition linearScale (min max : number) (inverted : option bool) : Scale.t :=
  let range := (max - min)%float in
  let toRatio := fun a : number =>
    let r := ((a - min) / range)%float in
    if truthy inverted then (1 - r)%float else r in
  let toAbsolute := fun r : number =>
    if truthy inverted then (min + (1 - r) * range)%float
    else (min + r * range)%float in
  let convertTo := fun (otherScale : ScaleView) (a : number) =>
    convertScaleTo otherScale a toRatio in
  let applyDeltaTo := fun (otherScale : ScaleView) (delta otherCurrent : number) =>
    applyDeltaToScale otherScale delta otherCurrent toAbsolute toRatio in
  Scale.mk min max toRatio toAbsolute applyDeltaTo convertTo.

End Binary64.

(** ** Facts about the host primitives *)

Lemma round_bounds (x : R) : Math.round x - / 2 <= x < Math.round x + / 2.
Proof.
  unfold Math.round.
  destruct (base_Int_part (x + / 2)) as [Hle Hgt].
  split; lra.
Qed.

Lemma round_unique (x : R) (k : Z) :
  IZR k - / 2 <= x < IZR k + / 2 -> Math.round x = IZR k.
Proof.
  intros [Hlo Hhi]. unfold Math.round. f_equal. symmetry.
  apply Int_part_spec. split; lra.
Qed.

Lemma round_IZR (k : Z) : Math.round (IZR k) = IZR k.
Proof. apply round_unique. split; lra. Qed.

Lemma round_tie (k : Z) : Math.round (IZR k + / 2) = IZR (k + 1).
Proof. apply round_unique. rewrite plus_IZR. split; lra. Qed.

Lemma round_nearest (x : R) : Rabs (Math.round x - x) <= / 2.
Proof.
  destruct (round_bounds x) as [Hlo Hhi].
  apply Rabs_le. split; lra.
Qed.

Lemma sign_pos (x : R) : 0 < x -> Math.sign x = 1.
Proof.
  intros Hx. unfold Math.sign.
  destruct (Rlt_dec 0 x) as [_ | Hn]; [reflexivity | contradiction].
Qed.

Lemma sign_neg (x : R) : x < 0 -> Math.sign x = -1.
Proof.
  intros Hx. unfold Math.sign.
  destruct (Rlt_dec 0 x) as [Hp | _]; [lra |].
  destruct (Rlt_dec x 0) as [_ | Hn]; [reflexivity | contradiction].
Qed.

Lemma ln_10_pos : 0 < ln 10.
Proof. rewrite <- ln_1. apply ln_increasing; lra. Qed.

Lemma log10_1 : Math.log10 1 = 0.
Proof. unfold Math.log10. rewrite ln_1. unfold Rdiv. apply Rmult_0_l. Qed.

Lemma log10_pow10 (n : nat) : Math.log10 (10 ^ n) = INR n.
Proof.
  unfold Math.log10. rewrite ln_pow by lra.
  field. apply Rgt_not_eq, ln_10_pos.
Qed.

Lemma log10_inj (x y : R) :
  0 < x -> 0 < y -> Math.log10 x = Math.log10 y -> x = y.
Proof.
  intros Hx Hy H. apply ln_inv; trivial.
  unfold Math.log10, Rdiv in H.
  apply Rmult_eq_reg_r in H; [exact H |].
  apply Rinv_neq_0_compat, Rgt_not_eq, ln_10_pos.
Qed.

Lemma pow10_log10 (x : R) : 0 < x -> Math.pow 10 (Math.log10 x) = x.
Proof.
  intros Hx. unfold Math.pow, Math.log10, Rpower.
  replace (ln x / ln 10 * ln 10) with (ln x)
    by (field; apply Rgt_not_eq, ln_10_pos).
  apply exp_ln, Hx.
Qed.

(** ** Cross-scale operations *)

Lemma convertScaleTo_eq (other : ScaleView) (a : R) (f : ToRatio) :
  convertScaleTo other a f = vtoAbsolute other (f a).
Proof. reflexivity. Qed.

Lemma applyDeltaToScale_eq (other : ScaleView) (delta c : R)
    (g : ToAbsolute) (f : ToRatio) :
  applyDeltaToScale other delta c g f =
  vtoAbsolute other (f (g (vtoRatio other c) + delta)).
Proof. reflexivity. Qed.

(** Each constructor hands its own two conversions to the shared helper. *)
Lemma linearScale_applyDeltaTo (min max : R) (inverted : option bool)
    (other : ScaleView) (delta c : R) :
  let A := linearScale min max inverted in
  Scale.applyDeltaTo A other delta c =
  applyDeltaToScale other delta c (Scale.toAbsolute A) (Scale.toRatio A).
Proof. reflexivity. Qed.

Lemma rasteredLinearScale_applyDeltaTo (min max stepSize : R)
    (inverted : option bool) (other : ScaleView) (delta c : R) :
  let A := rasteredLinearScale min max stepSize inverted in
  Scale.applyDeltaTo A other delta c =
  applyDeltaToScale other delta c (Scale.toAbsolute A) (Scale.toRatio A).
Proof. reflexivity. Qed.

Lemma logarithmicScale_applyDeltaTo (min max : R) (inverted : option bool)
    (other : ScaleView) (delta c : R) :
  let A := logarithmicScale min max inverted in
  Scale.applyDeltaTo A other delta c =
  applyDeltaToScale other delta c (Scale.toAbsolute A) (Scale.toRatio A).
Proof. reflexivity. Qed.

(** The five steps as one expression over two scales. *)
Lemma five_steps (A B : Scale.t) (delta c : R) :
  applyDeltaToScale (view B) delta c (Scale.toAbsolute A) (Scale.toRatio A) =
  Scale.toAbsolute B
    (Scale.toRatio A (Scale.toAbsolute A (Scale.toRatio B c) + delta)).
Proof. reflexivity. Qed.

(** C2. For a scale A built by [linearScale], [rasteredLinearScale] or
    [logarithmicScale], any scale B and any numbers delta and c,
    [A.applyDeltaTo(B, delta, c)] is
    [B.toAbsolute(A.toRatio(A.toAbsolute(B.toRatio(c)) + delta))]; on
    [linearScale(0,100)] and [linearScale(0,200)] with delta 10 and current
    value 50 the formula gives 70. *)
Theorem applyDeltaTo_five_steps :
  (forall (min max : R) (inverted : option bool) (B : Scale.t) (delta c : R),
      let A := linearScale min max inverted in
      Scale.applyDeltaTo A (view B) delta c =
      Scale.toAbsolute B
        (Scale.toRatio A (Scale.toAbsolute A (Scale.toRatio B c) + delta))) /\
  (forall (min max stepSize : R) (inverted : option bool) (B : Scale.t)
          (delta c : R),
      let A := rasteredLinearScale min max stepSize inverted in
      Scale.applyDeltaTo A (view B) delta c =
      Scale.toAbsolute B
        (Scale.toRatio A (Scale.toAbsolute A (Scale.toRatio B c) + delta))) /\
  (forall (min max : R) (inverted : option bool) (B : Scale.t) (delta c : R),
      let A := logarithmicScale min max inverted in
      Scale.applyDeltaTo A (view B) delta c =
      Scale.toAbsolute B
        (Scale.toRatio A (Scale.toAbsolute A (Scale.toRatio B c) + delta))) /\
  Scale.applyDeltaTo (linearScale 0 100 None)
    (view (linearScale 0 200 None)) 10 50 = 70.
Proof.
  split; [| split; [| split]].
  - intros min max inverted B delta c A. subst A.
    rewrite linearScale_applyDeltaTo. apply five_steps.
  - intros min max stepSize inverted B delta c A. subst A.
    rewrite rasteredLinearScale_applyDeltaTo. apply five_steps.
  - intros min max inverted B delta c A. subst A.
    rewrite logarithmicScale_applyDeltaTo. apply five_steps.
  - rewrite linearScale_applyDeltaTo, five_steps. cbn. field.
Qed.

(** ** The clamped decorator *)

Lemma clamped_linear_150 : Scale.toRatio (clamped linear) 150 = 1.
Proof.
  cbn. unfold clampedToRatio, Math.max, Math.min.
  replace ((150 - 0) / (100 - 0)) with (3 / 2) by field.
  rewrite Rmin_right by lra. rewrite Rmax_right by lra. reflexivity.
Qed.

(** C6. [clamped(s)] keeps [min], [max], [convertTo] and [applyDeltaTo] of
    [s]; the two methods still go through the conversions of [s], not the
    clamped ones: converting 150 from a clamped [linearScale(0,100)] to
    [linearScale(0,200)] gives 300, where the clamped [toRatio] would have
    led to 200. *)
Theorem clamped_frame :
  (forall s : Scale.t,
      Scale.min (clamped s) = Scale.min s /\
      Scale.max (clamped s) = Scale.max s /\
      (forall (other : ScaleView) (v : R),
          Scale.convertTo (clamped s) other v = Scale.convertTo s other v) /\
      (forall (other : ScaleView) (delta c : R),
          Scale.applyDeltaTo (clamped s) other delta c =
          Scale.applyDeltaTo s other delta c)) /\
  (forall (min max : R) (inverted : option bool) (other : ScaleView)
          (delta v : R),
      let s := linearScale min max inverted in
      Scale.convertTo (clamped s) other v =
        vtoAbsolute other (Scale.toRatio s v) /\
      Scale.applyDeltaTo (clamped s) other delta v =
        applyDeltaToScale other delta v (Scale.toAbsolute s) (Scale.toRatio s)) /\
  Scale.convertTo (clamped linear) (view (linearScale 0 200 None)) 150 = 300 /\
  Scale.toAbsolute (linearScale 0 200 None)
    (Scale.toRatio (clamped linear) 150) = 200.
Proof.
  split; [| split; [| split]].
  - intros s. repeat split.
  - intros min max inverted other delta v s. split; reflexivity.
  - cbn. unfold convertScaleTo. cbn. field.
  - rewrite clamped_linear_150. cbn. field.
Qed.

Lemma clampedToRatio_range (v : R) (f : ToRatio) :
  0 <= clampedToRatio v f <= 1.
Proof.
  unfold clampedToRatio, Math.max, Math.min. split.
  - apply Rmax_l.
  - apply Rmax_lub; [lra | apply Rmin_r].
Qed.

Lemma clampedToAbsolute_range (r lo hi : R) (f : ToAbsolute) :
  lo <= hi -> lo <= clampedToAbsolute r lo hi f <= hi.
Proof.
  intros Hle. unfold clampedToAbsolute, Math.max, Math.min. split.
  - apply Rmax_l.
  - apply Rmax_lub; [exact Hle | apply Rmin_r].
Qed.

(** With the bounds the other way round the clamp is constant. *)
Lemma clampedToAbsolute_crossed (r lo hi : R) (f : ToAbsolute) :
  hi < lo -> clampedToAbsolute r lo hi f = lo.
Proof.
  intros Hlt. unfold clampedToAbsolute, Math.max, Math.min.
  apply Rmax_left.
  apply Rle_trans with hi; [apply Rmin_r | lra].
Qed.

(** In exact real arithmetic, where every image is a real number, the
    clamped ratio lies in [[0, 1]] and the clamped absolute value between
    the two bounds, in whichever order they are. *)
Lemma clamped_between_reals (s : Scale.t) (v r : R) :
  0 <= Scale.toRatio (clamped s) v <= 1 /\
  Rmin (Scale.min s) (Scale.max s) <= Scale.toAbsolute (clamped s) r
    <= Rmax (Scale.min s) (Scale.max s).
Proof.
  split; [apply clampedToRatio_range |]. cbn.
  destruct (Rle_dec (Scale.min s) (Scale.max s)) as [Hle | Hgt].
  - rewrite Rmin_left, Rmax_right by exact Hle.
    apply clampedToAbsolute_range, Hle.
  - rewrite clampedToAbsolute_crossed by lra.
    split; [apply Rmin_l | apply Rmax_l].
Qed.

(** *** The order of binary64 numbers *)

(** Case analysis on the comparisons of exponents and mantissas in the
    goal and in the hypotheses. *)
Ltac split_compare :=
  repeat match goal with
  | |- context [(?a ?= ?b)%Z] => destruct (Z.compare_spec a b)
  | H : context [(?a ?= ?b)%Z] |- _ => destruct (Z.compare_spec a b)
  | |- context [Pos.compare_cont Eq ?a ?b] =>
      change (Pos.compare_cont Eq a b) with (Pos.compare a b);
      destruct (Pos.compare_spec a b)
  | H : context [Pos.compare_cont Eq ?a ?b] |- _ =>
      change (Pos.compare_cont Eq a b) with (Pos.compare a b) in H;
      destruct (Pos.compare_spec a b)
  end.

Lemma SFcompare_antisym (x y : SpecFloat.spec_float) :
  SpecFloat.SFcompare y x = option_map CompOpp (SpecFloat.SFcompare x y).
Proof.
  destruct x as [sx | sx | | sx mx ex], y as [sy | sy | | sy my ey];
    try destruct sx; try destruct sy; try reflexivity; simpl;
    split_compare; subst; simpl; try reflexivity; lia.
Qed.

Lemma SFcompare_refl (x : SpecFloat.spec_float) :
  x <> SpecFloat.S754_nan -> SpecFloat.SFcompare x x = Some Eq.
Proof.
  destruct x as [s | s | | s m e]; intros H; try destruct s; try reflexivity;
    try congruence; simpl; rewrite Z.compare_refl;
    change (Pos.compare_cont Eq m m) with (Pos.compare m m);
    rewrite Pos.compare_refl; reflexivity.
Qed.

Lemma SFcompare_some (x y : SpecFloat.spec_float) :
  x <> SpecFloat.S754_nan -> y <> SpecFloat.S754_nan ->
  exists c, SpecFloat.SFcompare x y = Some c.
Proof.
  destruct x, y; intros Hx Hy; try congruence; simpl; eexists; reflexivity.
Qed.

Lemma SFleb_ltb_trans (x y z : SpecFloat.spec_float) :
  SpecFloat.SFleb x y = true -> SpecFloat.SFltb y z = true ->
  SpecFloat.SFltb x z = true.
Proof.
  unfold SpecFloat.SFleb, SpecFloat.SFltb.
  destruct x as [sx | sx | | sx mx ex], y as [sy | sy | | sy my ey],
    z as [sz | sz | | sz mz ez];
    try destruct sx; try destruct sy; try destruct sz; simpl;
    intros H1 H2; try discriminate; try reflexivity;
    split_compare; subst; simpl in *; try discriminate; try reflexivity;
    try lia.
Qed.

Lemma number_not_nan (x : Binary64.number) :
  Binary64.is_number x -> FloatOps.Prim2SF x <> SpecFloat.S754_nan.
Proof.
  unfold Binary64.is_number, PrimFloat.is_nan. rewrite FloatAxioms.eqb_spec.
  intros H E. rewrite E in H. discriminate.
Qed.

Lemma nan_not_number (x : Binary64.number) :
  PrimFloat.is_nan x = true -> FloatOps.Prim2SF x = SpecFloat.S754_nan.
Proof.
  unfold PrimFloat.is_nan. rewrite FloatAxioms.eqb_spec.
  unfold SpecFloat.SFeqb. intros H.
  destruct (FloatOps.Prim2SF x) eqn:E; try reflexivity;
    rewrite SFcompare_refl in H by discriminate; discriminate.
Qed.

Lemma b64_le_refl (x : Binary64.number) :
  Binary64.is_number x -> Binary64.le x x.
Proof.
  intros Hx. unfold Binary64.le. rewrite FloatAxioms.leb_spec.
  unfold SpecFloat.SFleb.
  rewrite SFcompare_refl by (apply number_not_nan, Hx). reflexivity.
Qed.

Lemma b64_lt_le (x y : Binary64.number) :
  Binary64.lt x y -> Binary64.le x y.
Proof.
  unfold Binary64.lt, Binary64.le.
  rewrite FloatAxioms.ltb_spec, FloatAxioms.leb_spec.
  unfold SpecFloat.SFltb, SpecFloat.SFleb.
  destruct (SpecFloat.SFcompare _ _) as [[ | | ] | ]; intros H;
    try discriminate; reflexivity.
Qed.

Lemma b64_not_lt_le (x y : Binary64.number) :
  Binary64.is_number x -> Binary64.is_number y ->
  (x <? y)%float = false -> Binary64.le y x.
Proof.
  intros Hx Hy. unfold Binary64.le.
  rewrite FloatAxioms.ltb_spec, FloatAxioms.leb_spec.
  unfold SpecFloat.SFltb, SpecFloat.SFleb.
  rewrite (SFcompare_antisym (FloatOps.Prim2SF x) (FloatOps.Prim2SF y)).
  destruct (SFcompare_some _ _ (number_not_nan x Hx) (number_not_nan y Hy))
    as [c ->].
  destruct c; simpl; intros H; try discriminate; reflexivity.
Qed.

Lemma b64_lt_asym (x y : Binary64.number) :
  Binary64.lt x y -> (y <? x)%float = false.
Proof.
  unfold Binary64.lt. rewrite !FloatAxioms.ltb_spec. unfold SpecFloat.SFltb.
  rewrite (SFcompare_antisym (FloatOps.Prim2SF x) (FloatOps.Prim2SF y)).
  destruct (SpecFloat.SFcompare _ _) as [[ | | ] | ]; simpl; intros H;
    try discriminate; reflexivity.
Qed.

Lemma b64_le_lt_trans (x y z : Binary64.number) :
  Binary64.le x y -> Binary64.lt y z -> Binary64.lt x z.
Proof.
  unfold Binary64.le, Binary64.lt.
  rewrite !FloatAxioms.ltb_spec, FloatAxioms.leb_spec.
  apply SFleb_ltb_trans.
Qed.

Lemma b64_lt_is_number (x y : Binary64.number) :
  Binary64.lt x y -> Binary64.is_number x /\ Binary64.is_number y.
Proof.
  unfold Binary64.lt, Binary64.is_number. rewrite FloatAxioms.ltb_spec.
  unfold SpecFloat.SFltb. intros H. split.
  - destruct (PrimFloat.is_nan x) eqn:E; [| reflexivity].
    apply nan_not_number in E. rewrite E in H. discriminate.
  - destruct (PrimFloat.is_nan y) eqn:E; [| reflexivity].
    apply nan_not_number in E. rewrite E in H.
    destruct (FloatOps.Prim2SF x); discriminate.
Qed.

(** [Math.min] of two numbers is one of them and at most each. *)
Lemma b64_min_spec (x y : Binary64.number) :
  Binary64.is_number x -> Binary64.is_number y ->
  (Binary64.Math.min x y = x \/ Binary64.Math.min x y = y) /\
  Binary64.le (Binary64.Math.min x y) x /\
  Binary64.le (Binary64.Math.min x y) y.
Proof.
  intros Hx Hy. unfold Binary64.Math.min. rewrite Hx, Hy. cbn [orb].
  destruct (x <? y)%float eqn:E1.
  - split; [left; reflexivity |].
    split; [apply b64_le_refl, Hx | apply b64_lt_le, E1].
  - destruct (y <? x)%float eqn:E2.
    + split; [right; reflexivity |].
      split; [apply b64_lt_le, E2 | apply b64_le_refl, Hy].
    + destruct (PrimFloat.get_sign x).
      * split; [left; reflexivity |].
        split; [apply b64_le_refl, Hx | apply b64_not_lt_le; assumption].
      * split; [right; reflexivity |].
        split; [apply b64_not_lt_le; assumption | apply b64_le_refl, Hy].
Qed.

(** [Math.max] of two numbers is one of them and at least each. *)
Lemma b64_max_spec (x y : Binary64.number) :
  Binary64.is_number x -> Binary64.is_number y ->
  (Binary64.Math.max x y = x \/ Binary64.Math.max x y = y) /\
  Binary64.le x (Binary64.Math.max x y) /\
  Binary64.le y (Binary64.Math.max x y).
Proof.
  intros Hx Hy. unfold Binary64.Math.max. rewrite Hx, Hy. cbn [orb].
  destruct (x <? y)%float eqn:E1.
  - split; [right; reflexivity |].
    split; [apply b64_lt_le, E1 | apply b64_le_refl, Hy].
  - destruct (y <? x)%float eqn:E2.
    + split; [left; reflexivity |].
      split; [apply b64_le_refl, Hx | apply b64_lt_le, E2].
    + destruct (PrimFloat.get_sign x).
      * split; [right; reflexivity |].
        split; [apply b64_not_lt_le; assumption | apply b64_le_refl, Hy].
      * split; [left; reflexivity |].
        split; [apply b64_le_refl, Hx | apply b64_not_lt_le; assumption].
Qed.

Lemma b64_max_left (x y : Binary64.number) :
  Binary64.lt y x -> Binary64.Math.max x y = x.
Proof.
  intros H. destruct (b64_lt_is_number y x H) as [Hy Hx].
  unfold Binary64.Math.max. rewrite Hx, Hy. cbn [orb].
  rewrite (b64_lt_asym y x H). unfold Binary64.lt in H. rewrite H.
  reflexivity.
Qed.

(** The clamp [Math.max(lo, Math.min(x, hi))] of a number between two
    numbers: a number, at least [lo], at most [hi] when [lo <= hi], and
    [lo] itself when [hi < lo]. *)
Lemma b64_clamp_spec (lo hi x : Binary64.number) :
  Binary64.is_number lo -> Binary64.is_number hi -> Binary64.is_number x ->
  Binary64.is_number (Binary64.Math.max lo (Binary64.Math.min x hi)) /\
  Binary64.le lo (Binary64.Math.max lo (Binary64.Math.min x hi)) /\
  (Binary64.le lo hi ->
   Binary64.le (Binary64.Math.max lo (Binary64.Math.min x hi)) hi) /\
  (Binary64.lt hi lo ->
   Binary64.Math.max lo (Binary64.Math.min x hi) = lo).
Proof.
  intros Hlo Hhi Hx.
  destruct (b64_min_spec x hi Hx Hhi) as [Hm [_ Hmh]].
  assert (Hmn : Binary64.is_number (Binary64.Math.min x hi))
    by (destruct Hm as [-> | ->]; assumption).
  destruct (b64_max_spec lo (Binary64.Math.min x hi) Hlo Hmn)
    as [Hc [Hc1 _]].
  split; [destruct Hc as [-> | ->]; assumption |].
  split; [exact Hc1 |].
  split.
  - intros Hle. destruct Hc as [-> | ->]; assumption.
  - intros Hlt. apply b64_max_left.
    apply b64_le_lt_trans with hi; assumption.
Qed.

(** C5, as the code has it, in binary64.  For every scale [s] and every
    input: if [s.toRatio(v)] is not [NaN], [clamped(s).toRatio(v)] lies in
    [[0, 1]]; if [s.min], [s.max] and [s.toAbsolute(r)] are not [NaN],
    [clamped(s).toAbsolute(r)] is at least [s.min] and, when
    [s.min <= s.max], at most [s.max], and when [s.max < s.min] it is
    [s.min] itself; infinite images are covered; and
    [clamped(linearScale(0,100)).toRatio(150)] is 1. *)
Theorem clamped_bounds (s : Binary64.Scale.t) (v r : Binary64.number) :
  (Binary64.is_number (Binary64.Scale.toRatio s v) ->
   Binary64.le 0%float (Binary64.Scale.toRatio (Binary64.clamped s) v) /\
   Binary64.le (Binary64.Scale.toRatio (Binary64.clamped s) v) 1%float) /\
  (Binary64.is_number (Binary64.Scale.min s) ->
   Binary64.is_number (Binary64.Scale.max s) ->
   Binary64.is_number (Binary64.Scale.toAbsolute s r) ->
   Binary64.le (Binary64.Scale.min s)
     (Binary64.Scale.toAbsolute (Binary64.clamped s) r) /\
   (Binary64.le (Binary64.Scale.min s) (Binary64.Scale.max s) ->
    Binary64.le (Binary64.Scale.toAbsolute (Binary64.clamped s) r)
      (Binary64.Scale.max s)) /\
   (Binary64.lt (Binary64.Scale.max s) (Binary64.Scale.min s) ->
    Binary64.Scale.toAbsolute (Binary64.clamped s) r = Binary64.Scale.min s)) /\
  Binary64.Scale.toRatio
    (Binary64.clamped (Binary64.linearScale 0%float 100%float None))
    150%float = 1%float.
Proof.
  split; [| split].
  - intros Hx. cbn. unfold Binary64.clampedToRatio.
    destruct (b64_clamp_spec 0%float 1%float (Binary64.Scale.toRatio s v))
      as [_ [Hlo [Hhi _]]]; [reflexivity | reflexivity | exact Hx |].
    split; [exact Hlo | apply Hhi; reflexivity].
  - intros Hmin Hmax Hx. cbn. unfold Binary64.clampedToAbsolute.
    destruct (b64_clamp_spec (Binary64.Scale.min s) (Binary64.Scale.max s)
                (Binary64.Scale.toAbsolute s r) Hmin Hmax Hx)
      as [_ [Hlo [Hhi Hcr]]].
    split; [exact Hlo |]. split; assumption.
  - vm_compute. reflexivity.
Qed.

Lemma clamped_bounds_witness :
  let s := Binary64.linearScale 0%float 100%float None in
  (Binary64.le 0%float (Binary64.Scale.toRatio (Binary64.clamped s) 150%float) /\
   Binary64.le (Binary64.Scale.toRatio (Binary64.clamped s) 150%float) 1%float) /\
  Binary64.le (Binary64.Scale.toAbsolute (Binary64.clamped s) 2%float)
    100%float.
Proof.
  intros s.
  destruct (clamped_bounds s 150%float 2%float) as [Hratio [Habs _]].
  split.
  - apply Hratio. vm_compute. reflexivity.
  - assert (Hmin : Binary64.is_number (Binary64.Scale.min s))
      by (vm_compute; reflexivity).
    assert (Hmax : Binary64.is_number (Binary64.Scale.max s))
      by (vm_compute; reflexivity).
    assert (Hx : Binary64.is_number (Binary64.Scale.toAbsolute s 2%float))
      by (vm_compute; reflexivity).
    assert (Hle : Binary64.le (Binary64.Scale.min s) (Binary64.Scale.max s))
      by (vm_compute; reflexivity).
    exact (proj1 (proj2 (Habs Hmin Hmax Hx)) Hle).
Defined.

(** C5 as the specification states it fails where the unclamped image is
    [NaN], which [Math.max] and [Math.min] hand on: on [linearScale(0, 0)]
    the ratio of 0 is [0 / 0], and the clamped ratio is [NaN], neither at
    least 0 nor at most 1; on [linearScale(0, 100)] the clamped absolute
    value of [NaN] is [NaN], neither at least 0 nor at most 100. *)
Lemma clamped_bounds_as_stated_fails :
  (let c := Binary64.Scale.toRatio
              (Binary64.clamped (Binary64.linearScale 0%float 0%float None))
              0%float in
   PrimFloat.is_nan c = true /\
   ~ (Binary64.le 0%float c /\ Binary64.le c 1%float)) /\
  (let a := Binary64.Scale.toAbsolute
              (Binary64.clamped (Binary64.linearScale 0%float 100%float None))
              PrimFloat.nan in
   PrimFloat.is_nan a = true /\
   ~ (Binary64.le 0%float a /\ Binary64.le a 100%float)).
Proof.
  split; (split; [vm_compute; reflexivity |]);
    intros [H _]; vm_compute in H; discriminate.
Qed.

(** ** The no-op scale *)

(** C9. The no-op scale: [toRatio] and [toAbsolute] are the identity,
    [convertTo] returns its value whatever the other scale is, and
    [applyDeltaTo] returns [c + d]. *)
Theorem noopScale_identity (other : Scale.t) (x d c : R) :
  Noop.toRatio noopScale x = x /\
  Noop.toAbsolute noopScale x = x /\
  Noop.convertTo noopScale (view other) x = x /\
  Noop.applyDeltaTo noopScale (view other) d c = c + d.
Proof. repeat split. Qed.

(** ** The linear scale *)

Section Linear.

Variables (min max : R) (inverted : option bool).
Hypothesis range_nonzero : min <> max.

(** A ratio goes to an absolute value and back unchanged, and the other way
    round, whenever the range is not zero; no bound on the value is needed,
    since the linear scale extrapolates. *)
Lemma linear_toAbsolute_toRatio (x : R) :
  Scale.toAbsolute (linearScale min max inverted)
    (Scale.toRatio (linearScale min max inverted) x) = x.
Proof.
  cbn. destruct (truthy inverted); field; lra.
Qed.

Lemma linear_toRatio_toAbsolute (r : R) :
  Scale.toRatio (linearScale min max inverted)
    (Scale.toAbsolute (linearScale min max inverted) r) = r.
Proof.
  cbn. destruct (truthy inverted); field; lra.
Qed.

Lemma linear_toRatio_min :
  Scale.toRatio (linearScale min max inverted) min = if truthy inverted then 1 else 0.
Proof.
  cbn. destruct (truthy inverted); field; lra.
Qed.

Lemma linear_toRatio_max :
  Scale.toRatio (linearScale min max inverted) max = if truthy inverted then 0 else 1.
Proof.
  cbn. destruct (truthy inverted); field; lra.
Qed.

End Linear.

(** C3, as the code has it.  Round trip of the linear scale: for
    [min < max], either value of [inverted] (or none) and [x] in
    [[min, max]], [toAbsolute(toRatio(x))] is [x], exactly, in real
    arithmetic.  (In binary64 the round trip is exact only up to rounding,
    within no fixed tolerance.) *)
Theorem linear_round_trip (min max : R) (inverted : option bool) (x : R) :
  min < max ->
  min <= x <= max ->
  Scale.toAbsolute (linearScale min max inverted)
    (Scale.toRatio (linearScale min max inverted) x) = x.
Proof.
  intros Hlt _. apply linear_toAbsolute_toRatio. lra.
Qed.

Lemma linear_round_trip_witness :
  Scale.toAbsolute (linearScale 0 100 (Some true))
    (Scale.toRatio (linearScale 0 100 (Some true)) 25) = 25.
Proof.
  apply (linear_round_trip 0 100 (Some true) 25); lra.
Defined.

(** C3 in binary64.  The round trip is exact only up to rounding, and the
    rounding error is not bounded by 1e-9: on [linearScale(-1e12, 1e12)]
    the value 1, within the bounds, comes back as 1.0001220703125. *)
Lemma linear_round_trip_binary64_fails :
  let s := Binary64.linearScale (-1e12)%float 1e12%float None in
  (-1e12 <? 1e12)%float = true /\
  (-1e12 <=? 1)%float = true /\
  (1 <=? 1e12)%float = true /\
  Binary64.Scale.toAbsolute s (Binary64.Scale.toRatio s 1%float)
    = 1.0001220703125%float /\
  ~ Binary64.le
      (PrimFloat.abs
         (Binary64.Scale.toAbsolute s (Binary64.Scale.toRatio s 1%float) - 1))
      1e-9%float.
Proof.
  intros s. repeat split; try (vm_compute; reflexivity).
  intros H. vm_compute in H. discriminate.
Qed.

(** C10. A zero delta changes nothing between two linear scales: with both
    ranges not zero, [A.applyDeltaTo(B, 0, c)] is [c]. *)
Theorem linear_applyDeltaTo_zero (minA maxA : R) (invA : option bool)
    (minB maxB : R) (invB : option bool) (c : R) :
  minA <> maxA ->
  minB <> maxB ->
  Scale.applyDeltaTo (linearScale minA maxA invA)
    (view (linearScale minB maxB invB)) 0 c = c.
Proof.
  intros HA HB.
  rewrite linearScale_applyDeltaTo, five_steps.
  rewrite Rplus_0_r.
  rewrite linear_toRatio_toAbsolute by exact HA.
  apply linear_toAbsolute_toRatio, HB.
Qed.

Lemma linear_applyDeltaTo_zero_witness :
  Scale.applyDeltaTo (linearScale 0 100 None)
    (view (linearScale 200 0 (Some true))) 0 50 = 50.
Proof.
  apply (linear_applyDeltaTo_zero 0 100 None 200 0 (Some true) 50); lra.
Defined.

(** ** The logarithmic scale *)

Lemma minus_one_mult (x : R) : -1 * x = - x.
Proof. ring. Qed.

(** Settles [Math.sign min] and the test [sign < 0] from a hypothesis on the
    sign of [min], and folds [sign * x] into [x] or [- x]. *)
Ltac settle_sign H :=
  match type of H with
  | 0 < ?m =>
      rewrite (sign_pos m H);
      destruct (Rlt_dec 1 0) as [? | _]; [lra |];
      rewrite !Rmult_1_l
  | ?m < 0 =>
      rewrite (sign_neg m H);
      destruct (Rlt_dec (-1) 0) as [_ | ?]; [| lra];
      rewrite !minus_one_mult
  end.

(** The two conversions written out for a range of positive numbers and for
    a range of negative numbers.  For a negative range the logarithms run
    from that of [-max] to that of [-min]. *)
Lemma log_toRatio_pos (min max : R) (inverted : option bool) (a : R) :
  0 < min ->
  Scale.toRatio (logarithmicScale min max inverted) a =
  let r := (Math.log10 a - Math.log10 min) /
           (Math.log10 max - Math.log10 min) in
  if truthy inverted then 1 - r else r.
Proof.
  intros Hmin. unfold logarithmicScale. cbn [Scale.toRatio].
  settle_sign Hmin. reflexivity.
Qed.

Lemma log_toRatio_neg (min max : R) (inverted : option bool) (a : R) :
  min < 0 ->
  Scale.toRatio (logarithmicScale min max inverted) a =
  let r := (Math.log10 (- a) - Math.log10 (- max)) /
           (Math.log10 (- min) - Math.log10 (- max)) in
  if truthy inverted then 1 - r else r.
Proof.
  intros Hmin. unfold logarithmicScale. cbn [Scale.toRatio].
  settle_sign Hmin. reflexivity.
Qed.

Lemma log_toAbsolute_pos (min max : R) (inverted : option bool) (r : R) :
  0 < min ->
  Scale.toAbsolute (logarithmicScale min max inverted) r =
  let logRange := Math.log10 max - Math.log10 min in
  if truthy inverted
  then Math.pow 10 (Math.log10 min + (1 - r) * logRange)
  else Math.pow 10 (Math.log10 min + r * logRange).
Proof.
  intros Hmin. unfold logarithmicScale. cbn [Scale.toAbsolute].
  settle_sign Hmin. reflexivity.
Qed.

Lemma log_toAbsolute_neg (min max : R) (inverted : option bool) (r : R) :
  min < 0 ->
  Scale.toAbsolute (logarithmicScale min max inverted) r =
  let logRange := Math.log10 (- min) - Math.log10 (- max) in
  if truthy inverted
  then - Math.pow 10 (Math.log10 (- max) + (1 - r) * logRange)
  else - Math.pow 10 (Math.log10 (- max) + r * logRange).
Proof.
  intros Hmin. unfold logarithmicScale. cbn [Scale.toAbsolute].
  settle_sign Hmin. reflexivity.
Qed.

Lemma log10_range_nonzero (x y : R) :
  0 < x -> 0 < y -> x <> y -> Math.log10 y - Math.log10 x <> 0.
Proof.
  intros Hx Hy Hne H. apply Hne. symmetry.
  apply log10_inj; trivial. lra.
Qed.

(** Ratios of the two bounds.  A range of positive numbers has its minimum
    at ratio 0; a range of negative numbers has its maximum there. *)
Lemma log_ratio_bounds_pos (min max : R) (inverted : option bool) :
  0 < min -> 0 < max -> min <> max ->
  Scale.toRatio (logarithmicScale min max inverted) min
    = (if truthy inverted then 1 else 0) /\
  Scale.toRatio (logarithmicScale min max inverted) max
    = (if truthy inverted then 0 else 1).
Proof.
  intros Hmin Hmax Hne.
  pose proof (log10_range_nonzero min max Hmin Hmax Hne) as Hr.
  rewrite !log_toRatio_pos by exact Hmin. cbv zeta.
  split; destruct (truthy inverted); field; exact Hr.
Qed.

Lemma log_ratio_bounds_neg (min max : R) (inverted : option bool) :
  min < 0 -> max < 0 -> min <> max ->
  Scale.toRatio (logarithmicScale min max inverted) min
    = (if truthy inverted then 0 else 1) /\
  Scale.toRatio (logarithmicScale min max inverted) max
    = (if truthy inverted then 1 else 0).
Proof.
  intros Hmin Hmax Hne.
  assert (Hr : Math.log10 (- min) - Math.log10 (- max) <> 0)
    by (apply log10_range_nonzero; lra).
  rewrite !log_toRatio_neg by exact Hmin. cbv zeta.
  split; destruct (truthy inverted); field; exact Hr.
Qed.

Lemma log10_1000 : Math.log10 1000 = 3.
Proof.
  replace 1000 with (10 ^ 3) by ring.
  rewrite log10_pow10. simpl. ring.
Qed.

Lemma pow10_0 : Math.pow 10 0 = 1.
Proof. unfold Math.pow. apply Rpower_O. lra. Qed.

Lemma pow10_3 : Math.pow 10 3 = 1000.
Proof.
  unfold Math.pow. replace 3 with (INR 3) by (simpl; ring).
  rewrite Rpower_pow by lra. ring.
Qed.

Lemma pow10_3_2 : Math.pow 10 (3 / 2) = 10 * sqrt 10.
Proof.
  unfold Math.pow. replace (3 / 2) with (1 + / 2) by field.
  rewrite Rpower_plus, Rpower_1, Rpower_sqrt by lra. reflexivity.
Qed.

Lemma sqrt_10_bounds : 3.16227 < sqrt 10 < 3.16228.
Proof.
  assert (H0 : 0 <= sqrt 10) by apply sqrt_pos.
  assert (H1 : sqrt 10 * sqrt 10 = 10) by (apply sqrt_sqrt; lra).
  split; nra.
Qed.

(** The logarithmic scale of the reference scenario, from -1000 to -1,
    written out: ratio [r] is [-10^(3r)]. *)
Lemma logarithmic_toAbsolute (r : R) :
  Scale.toAbsolute logarithmic r = - Math.pow 10 (3 * r).
Proof.
  unfold logarithmic. rewrite log_toAbsolute_neg by lra.
  cbn [truthy]. cbv zeta.
  replace (- -1) with 1 by ring. replace (- -1000) with 1000 by ring.
  rewrite log10_1, log10_1000. f_equal. f_equal. ring.
Qed.

Lemma linear_convertTo (other : ScaleView) (v : R) :
  Scale.convertTo linear other v = vtoAbsolute other (v / 100).
Proof.
  unfold linear. cbn. unfold convertScaleTo. f_equal. field.
Qed.

Lemma convert_0 : Scale.convertTo linear (view logarithmic) 0 = -1.
Proof.
  rewrite linear_convertTo. cbn [view vtoAbsolute].
  rewrite logarithmic_toAbsolute.
  replace (3 * (0 / 100)) with 0 by field.
  rewrite pow10_0. reflexivity.
Qed.

Lemma convert_100 : Scale.convertTo linear (view logarithmic) 100 = -1000.
Proof.
  rewrite linear_convertTo. cbn [view vtoAbsolute].
  rewrite logarithmic_toAbsolute.
  replace (3 * (100 / 100)) with 3 by field.
  rewrite pow10_3. reflexivity.
Qed.

Lemma convert_50 :
  Scale.convertTo linear (view logarithmic) 50 = - (10 * sqrt 10).
Proof.
  rewrite linear_convertTo. cbn [view vtoAbsolute].
  rewrite logarithmic_toAbsolute.
  replace (3 * (50 / 100)) with (3 / 2) by field.
  rewrite pow10_3_2. reflexivity.
Qed.

(** C1, as the code has it.  From [linearScale(0,100)] to
    [logarithmicScale(-1000,-1)], [convertTo(other, v)] being
    [other.toAbsolute(this.toRatio(v))]: 0 goes to -1, 100 goes to -1000 and
    50 goes to [-10^1.5], which is -31.6228 to four decimals.  Ratio 0 of a
    negative logarithmic range is its maximum. *)
Theorem convert_linear_to_logarithmic :
  (forall (other : Scale.t) (v : R),
      Scale.convertTo linear (view other) v =
      Scale.toAbsolute other (Scale.toRatio linear v)) /\
  Scale.convertTo linear (view logarithmic) 0 = -1 /\
  Scale.convertTo linear (view logarithmic) 100 = -1000 /\
  Scale.convertTo linear (view logarithmic) 50 = - Math.pow 10 (3 / 2) /\
  approx (/ 10 ^ 4) (Scale.convertTo linear (view logarithmic) 50) (-31.6228).
Proof.
  split; [reflexivity |].
  split; [exact convert_0 |].
  split; [exact convert_100 |].
  split.
  - rewrite convert_50, pow10_3_2. reflexivity.
  - rewrite convert_50. unfold approx.
    pose proof sqrt_10_bounds as [Hlo Hhi].
    apply Rabs_le. split; lra.
Qed.

(** C1 as the specification states it fails: 0 is not converted to a
    value near -1000, nor 100 to a value near -1. *)
Lemma convert_linear_to_logarithmic_as_stated_fails :
  ~ (approx (/ 10 ^ 4) (Scale.convertTo linear (view logarithmic) 0) (-1000) /\
     approx (/ 10 ^ 4) (Scale.convertTo linear (view logarithmic) 100) (-1) /\
     approx (/ 10 ^ 4) (Scale.convertTo linear (view logarithmic) 50) (-31.6228)).
Proof.
  intros [H0 _]. rewrite convert_0 in H0. unfold approx in H0.
  replace (-1 - -1000) with 999 in H0 by ring.
  rewrite Rabs_pos_eq in H0; lra.
Qed.

(** C4, as the code has it.  With a range that is not zero, the linear scale
    and the logarithmic scale over positive numbers send [min] to ratio 0
    and [max] to ratio 1, and the other way round when inverted.  The
    logarithmic scale over negative numbers sends [min] to ratio 1 and [max]
    to ratio 0, and the other way round when inverted. *)
Theorem toRatio_of_bounds (min max : R) (inverted : option bool) :
  min <> max ->
  (Scale.toRatio (linearScale min max inverted) min
     = (if truthy inverted then 1 else 0) /\
   Scale.toRatio (linearScale min max inverted) max
     = (if truthy inverted then 0 else 1)) /\
  (0 < min -> 0 < max ->
   Scale.toRatio (logarithmicScale min max inverted) min
     = (if truthy inverted then 1 else 0) /\
   Scale.toRatio (logarithmicScale min max inverted) max
     = (if truthy inverted then 0 else 1)) /\
  (min < 0 -> max < 0 ->
   Scale.toRatio (logarithmicScale min max inverted) min
     = (if truthy inverted then 0 else 1) /\
   Scale.toRatio (logarithmicScale min max inverted) max
     = (if truthy inverted then 1 else 0)).
Proof.
  intros Hne. split; [| split].
  - split; [apply linear_toRatio_min | apply linear_toRatio_max]; exact Hne.
  - intros Hmin Hmax. apply log_ratio_bounds_pos; assumption.
  - intros Hmin Hmax. apply log_ratio_bounds_neg; assumption.
Qed.

Lemma toRatio_of_bounds_witness :
  (Scale.toRatio (logarithmicScale 1 1000 None) 1 = 0 /\
   Scale.toRatio (logarithmicScale 1 1000 None) 1000 = 1) /\
  (Scale.toRatio (logarithmicScale (-1000) (-1) (Some true)) (-1000) = 0 /\
   Scale.toRatio (logarithmicScale (-1000) (-1) (Some true)) (-1) = 1).
Proof.
  split.
  - assert (Hne : 1 <> 1000) by lra.
    destruct (toRatio_of_bounds 1 1000 None Hne) as [_ [Hpos _]].
    apply Hpos; lra.
  - assert (Hne : -1000 <> -1) by lra.
    destruct (toRatio_of_bounds (-1000) (-1) (Some true) Hne) as [_ [_ Hneg]].
    apply Hneg; lra.
Defined.

(** C4 as the specification states it fails on the scale of the reference
    scenario: not inverted, [toRatio(min)] is 1 and [toRatio(max)] is 0. *)
Lemma toRatio_of_bounds_as_stated_fails :
  Scale.toRatio logarithmic (Scale.min logarithmic) = 1 /\
  Scale.toRatio logarithmic (Scale.max logarithmic) = 0 /\
  ~ (approx tolerance (Scale.toRatio logarithmic (Scale.min logarithmic)) 0 /\
     approx tolerance (Scale.toRatio logarithmic (Scale.max logarithmic)) 1).
Proof.
  assert (Hne : -1000 <> -1) by lra.
  destruct (log_ratio_bounds_neg (-1000) (-1) None) as [Hmin Hmax];
    [lra | lra | exact Hne |].
  cbn [truthy] in Hmin, Hmax.
  change (Scale.toRatio logarithmic (Scale.min logarithmic) = 1) in Hmin.
  change (Scale.toRatio logarithmic (Scale.max logarithmic) = 0) in Hmax.
  split; [exact Hmin |]. split; [exact Hmax |].
  intros [H0 _]. rewrite Hmin in H0. unfold approx, tolerance in H0.
  replace (1 - 0) with 1 in H0 by ring.
  rewrite Rabs_pos_eq in H0; lra.
Qed.

(** ** The rastered linear scale *)

Lemma rasteredLinearScale_toAbsolute (min max stepSize : R)
    (inverted : option bool) (r : R) :
  Scale.toAbsolute (rasteredLinearScale min max stepSize inverted) r =
  rastered stepSize (Scale.toAbsolute (linearScale min max inverted) r).
Proof. reflexivity. Qed.

Lemma rasteredLinearScale_toRatio (min max stepSize : R)
    (inverted : option bool) (a : R) :
  Scale.toRatio (rasteredLinearScale min max stepSize inverted) a =
  Scale.toRatio (linearScale min max inverted) (rastered stepSize a).
Proof. reflexivity. Qed.

Lemma rastered_multiple (stepSize a : R) :
  exists k : Z, rastered stepSize a = IZR k * stepSize.
Proof.
  exists (Int_part (a / stepSize + / 2)). reflexivity.
Qed.

Lemma rastered_fixed (stepSize : R) (k : Z) :
  stepSize <> 0 -> rastered stepSize (IZR k * stepSize) = IZR k * stepSize.
Proof.
  intros Hs. unfold rastered.
  replace (IZR k * stepSize / stepSize) with (IZR k) by (field; exact Hs).
  rewrite round_IZR. reflexivity.
Qed.

Lemma rastered_idempotent (stepSize a : R) :
  stepSize <> 0 ->
  rastered stepSize (rastered stepSize a) = rastered stepSize a.
Proof.
  intros Hs. destruct (rastered_multiple stepSize a) as [k Hk].
  rewrite Hk. apply rastered_fixed, Hs.
Qed.

Lemma rastered_nearest (stepSize a : R) :
  0 < stepSize -> Rabs (rastered stepSize a - a) <= stepSize / 2.
Proof.
  intros Hs. unfold rastered.
  destruct (round_bounds (a / stepSize)) as [Hlo Hhi].
  assert (Ha : a = a / stepSize * stepSize) by (field; lra).
  set (q := a / stepSize) in *.
  apply Rabs_le. split; nra.
Qed.

Lemma rastered_tie (stepSize a : R) (k : Z) :
  a / stepSize = IZR k + / 2 ->
  rastered stepSize a = IZR (k + 1) * stepSize.
Proof.
  intros Hq. unfold rastered. rewrite Hq, round_tie. reflexivity.
Qed.

Lemma rastered_minus_5_2 : rastered 1 (-5 / 2) = -2.
Proof.
  rewrite (rastered_tie 1 (-5 / 2) (-3)).
  - simpl. ring.
  - field.
Qed.

Lemma rastered_5_2 : rastered 1 (5 / 2) = 3.
Proof.
  rewrite (rastered_tie 1 (5 / 2) 2).
  - simpl. ring.
  - field.
Qed.

(** C7. With [stepSize > 0], [toAbsolute(r)] of a rastered linear scale is
    an integer multiple of [stepSize], and snapping, [a] to
    [round(a / stepSize) * stepSize], is idempotent: a snapped value, any
    multiple of [stepSize], and the output of [toAbsolute] are snapped to
    themselves. *)
Theorem rastering_idempotent (min max stepSize : R) (inverted : option bool)
    (r a : R) :
  0 < stepSize ->
  let s := rasteredLinearScale min max stepSize inverted in
  (exists k : Z, Scale.toAbsolute s r = IZR k * stepSize) /\
  rastered stepSize (rastered stepSize a) = rastered stepSize a /\
  (forall k : Z, rastered stepSize (IZR k * stepSize) = IZR k * stepSize) /\
  rastered stepSize (Scale.toAbsolute s r) = Scale.toAbsolute s r /\
  Scale.toRatio s (Scale.toAbsolute s r) =
    Scale.toRatio (linearScale min max inverted) (Scale.toAbsolute s r).
Proof.
  intros Hs s.
  assert (Hne : stepSize <> 0) by lra.
  assert (Hfix : rastered stepSize (Scale.toAbsolute s r) = Scale.toAbsolute s r).
  { subst s. rewrite rasteredLinearScale_toAbsolute.
    apply rastered_idempotent, Hne. }
  split; [| split; [| split; [| split]]].
  - subst s. rewrite rasteredLinearScale_toAbsolute. apply rastered_multiple.
  - apply rastered_idempotent, Hne.
  - intros k. apply rastered_fixed, Hne.
  - exact Hfix.
  - subst s. rewrite rasteredLinearScale_toRatio.
    fold (rasteredLinearScale min max stepSize inverted).
    f_equal. exact Hfix.
Qed.

Lemma rastering_idempotent_witness :
  rastered (1 / 4) (rastered (1 / 4) (7 / 10)) = rastered (1 / 4) (7 / 10).
Proof.
  assert (Hs : 0 < 1 / 4) by lra.
  destruct (rastering_idempotent 0 100 (1 / 4) None 0 (7 / 10) Hs)
    as [_ [Hidem _]].
  exact Hidem.
Defined.

(** C8, as the code has it.  With [stepSize > 0], snapping goes to a nearest
    multiple of [stepSize], at most half a step away, and a tie goes to the
    multiple closer to plus infinity: [a / stepSize = k + 1/2] is snapped to
    [(k + 1) * stepSize].  With step 1, -2.5 is snapped to -2 and 2.5
    to 3. *)
Theorem rastered_ties_up (stepSize a : R) :
  0 < stepSize ->
  Rabs (rastered stepSize a - a) <= stepSize / 2 /\
  (forall k : Z, a / stepSize = IZR k + / 2 ->
                 rastered stepSize a = IZR (k + 1) * stepSize) /\
  rastered 1 (-5 / 2) = -2 /\
  rastered 1 (5 / 2) = 3.
Proof.
  intros Hs. split; [| split; [| split]].
  - apply rastered_nearest, Hs.
  - intros k. apply rastered_tie.
  - exact rastered_minus_5_2.
  - exact rastered_5_2.
Qed.

Lemma rastered_ties_up_witness :
  Rabs (rastered 1 (-5 / 2) - -5 / 2) <= 1 / 2.
Proof.
  assert (Hs : 0 < 1) by lra.
  destruct (rastered_ties_up 1 (-5 / 2) Hs) as [Hnear _].
  exact Hnear.
Defined.

(** C8 as the specification states it fails: -2.5 lies halfway between -3
    and -2, the multiple of larger magnitude is -3, and the snap gives -2,
    in [toAbsolute] of [rasteredLinearScale(-10, 10, 1)] at ratio 3/8, whose
    linear value is -2.5. *)
Lemma rastered_ties_away_from_zero_fails :
  -5 / 2 / 1 = IZR (-3) + / 2 /\
  rastered 1 (-5 / 2) <> -3 /\
  Scale.toAbsolute (linearScale (-10) 10 None) (3 / 8) = -5 / 2 /\
  Scale.toAbsolute (rasteredLinearScale (-10) 10 1 None) (3 / 8) = -2.
Proof.
  split; [field |].
  split; [rewrite rastered_minus_5_2; lra |].
  split; [cbn; field |].
  rewrite rasteredLinearScale_toAbsolute.
  replace (Scale.toAbsolute (linearScale (-10) 10 None) (3 / 8))
    with (-5 / 2) by (cbn; field).
  exact rastered_minus_5_2.
Qed.

(** * Further properties of the scales *)

(** ** Linear scales *)

(** On a linear scale with [min < max], [toRatio] is strictly increasing,
    and strictly decreasing when the scale is inverted. *)
Theorem linear_toRatio_monotone (min max : R) (inverted : option bool)
    (a b : R) :
  min < max ->
  a < b ->
  if truthy inverted
  then Scale.toRatio (linearScale min max inverted) b
       < Scale.toRatio (linearScale min max inverted) a
  else Scale.toRatio (linearScale min max inverted) a
       < Scale.toRatio (linearScale min max inverted) b.
Proof.
  intros Hlt Hab. cbn.
  assert (Hr : 0 < / (max - min)) by (apply Rinv_0_lt_compat; lra).
  unfold Rdiv. destruct (truthy inverted); nra.
Qed.

Lemma linear_toRatio_monotone_witness :
  Scale.toRatio (linearScale 0 100 (Some true)) 30
  < Scale.toRatio (linearScale 0 100 (Some true)) 20.
Proof.
  apply (linear_toRatio_monotone 0 100 (Some true) 20 30); lra.
Defined.

(** On a linear scale with [min < max], a value within the bounds has its
    ratio within [[0, 1]], inverted or not. *)
Theorem linear_toRatio_in_unit (min max : R) (inverted : option bool) (x : R) :
  min < max ->
  min <= x <= max ->
  0 <= Scale.toRatio (linearScale min max inverted) x <= 1.
Proof.
  intros Hlt [Hlo Hhi]. cbn.
  assert (Hr : 0 < / (max - min)) by (apply Rinv_0_lt_compat; lra).
  assert (H1 : (max - min) * / (max - min) = 1) by (apply Rinv_r; lra).
  unfold Rdiv. destruct (truthy inverted); split; nra.
Qed.

Lemma linear_toRatio_in_unit_witness :
  0 <= Scale.toRatio (linearScale (-5) 5 None) 2 <= 1.
Proof.
  apply (linear_toRatio_in_unit (-5) 5 None 2); lra.
Defined.

(** On a linear scale with [min < max], a ratio within [[0, 1]] has its
    absolute value within the bounds, inverted or not. *)
Theorem linear_toAbsolute_in_bounds (min max : R) (inverted : option bool)
    (r : R) :
  min < max ->
  0 <= r <= 1 ->
  min <= Scale.toAbsolute (linearScale min max inverted) r <= max.
Proof.
  intros Hlt [Hlo Hhi]. cbn. destruct (truthy inverted); split; nra.
Qed.

Lemma linear_toAbsolute_in_bounds_witness :
  -5 <= Scale.toAbsolute (linearScale (-5) 5 (Some true)) (1 / 4) <= 5.
Proof.
  apply (linear_toAbsolute_in_bounds (-5) 5 (Some true) (1 / 4)); lra.
Defined.

(** The [inverted] flag is the exchange of the two bounds: an inverted
    linear scale from [min] to [max] converts as the plain one from [max]
    to [min], in both directions. *)
Theorem linear_inverted_swaps_bounds (min max : R) (a r : R) :
  min <> max ->
  Scale.toRatio (linearScale min max (Some true)) a
    = Scale.toRatio (linearScale max min None) a /\
  Scale.toAbsolute (linearScale min max (Some true)) r
    = Scale.toAbsolute (linearScale max min None) r.
Proof.
  intros Hne. cbn. split; field; lra.
Qed.

Lemma linear_inverted_swaps_bounds_witness :
  Scale.toRatio (linearScale 0 100 (Some true)) 30
    = Scale.toRatio (linearScale 100 0 None) 30.
Proof.
  assert (Hne : 0 <> 100) by lra.
  exact (proj1 (linear_inverted_swaps_bounds 0 100 30 0 Hne)).
Defined.

(** Conversion between two linear scales is the affine map between their
    ranges: it keeps the direction when both scales are inverted or neither
    is, and reverses it otherwise. *)
Theorem linear_convertTo_affine (minA maxA : R) (invA : option bool)
    (minB maxB : R) (invB : option bool) (v : R) :
  minA <> maxA ->
  Scale.convertTo (linearScale minA maxA invA)
    (view (linearScale minB maxB invB)) v =
  if Bool.eqb (truthy invA) (truthy invB)
  then minB + (v - minA) * ((maxB - minB) / (maxA - minA))
  else maxB - (v - minA) * ((maxB - minB) / (maxA - minA)).
Proof.
  intros HA. cbn. unfold convertScaleTo. cbn.
  destruct (truthy invA), (truthy invB); cbn; field; lra.
Qed.

Lemma linear_convertTo_affine_witness :
  Scale.convertTo (linearScale 0 100 None)
    (view (linearScale 0 200 (Some true))) 10 =
  200 - (10 - 0) * ((200 - 0) / (100 - 0)).
Proof.
  apply (linear_convertTo_affine 0 100 None 0 200 (Some true) 10); lra.
Defined.

(** A delta applied from one linear scale to another is the delta scaled by
    the quotient of the two ranges: added when both scales are inverted or
    neither is, subtracted otherwise. *)
Theorem linear_applyDeltaTo_scaled (minA maxA : R) (invA : option bool)
    (minB maxB : R) (invB : option bool) (delta c : R) :
  minA <> maxA ->
  minB <> maxB ->
  Scale.applyDeltaTo (linearScale minA maxA invA)
    (view (linearScale minB maxB invB)) delta c =
  if Bool.eqb (truthy invA) (truthy invB)
  then c + delta * ((maxB - minB) / (maxA - minA))
  else c - delta * ((maxB - minB) / (maxA - minA)).
Proof.
  intros HA HB. rewrite linearScale_applyDeltaTo, five_steps. cbn.
  destruct (truthy invA), (truthy invB); cbn; field; lra.
Qed.

Lemma linear_applyDeltaTo_scaled_witness :
  Scale.applyDeltaTo (linearScale 0 100 None)
    (view (linearScale 0 200 (Some true))) 10 50 =
  50 - 10 * ((200 - 0) / (100 - 0)).
Proof.
  apply (linear_applyDeltaTo_scaled 0 100 None 0 200 (Some true) 10 50); lra.
Defined.

(** ** Composition of the cross-scale operations *)

(** Deltas add up.  From a linear scale A with a range that is not zero,
    onto any scale B whose [toRatio] undoes its [toAbsolute], applying
    [d1] and then [d2] is applying [d1 + d2]. *)
Theorem applyDeltaTo_additive (minA maxA : R) (invA : option bool)
    (B : Scale.t) (d1 d2 c : R) :
  minA <> maxA ->
  (forall r : R, Scale.toRatio B (Scale.toAbsolute B r) = r) ->
  let A := linearScale minA maxA invA in
  Scale.applyDeltaTo A (view B) d2 (Scale.applyDeltaTo A (view B) d1 c) =
  Scale.applyDeltaTo A (view B) (d1 + d2) c.
Proof.
  intros HA HB A. subst A.
  rewrite !linearScale_applyDeltaTo, !five_steps.
  rewrite HB.
  rewrite (linear_toAbsolute_toRatio minA maxA invA HA).
  rewrite Rplus_assoc. reflexivity.
Qed.

Lemma applyDeltaTo_additive_witness :
  Scale.applyDeltaTo linear (view (linearScale 0 200 None)) 5
    (Scale.applyDeltaTo linear (view (linearScale 0 200 None)) 10 50) =
  Scale.applyDeltaTo linear (view (linearScale 0 200 None)) (10 + 5) 50.
Proof.
  apply (applyDeltaTo_additive 0 100 None (linearScale 0 200 None) 10 5 50).
  - lra.
  - intros r. apply linear_toRatio_toAbsolute. lra.
Defined.



(** ** More on the clamped decorator *)

(** Clamping twice is clamping once, for both conversions and whatever the
    order of the bounds. *)
Theorem clamped_idempotent (s : Scale.t) (v r : R) :
  Scale.toRatio (clamped (clamped s)) v = Scale.toRatio (clamped s) v /\
  Scale.toAbsolute (clamped (clamped s)) r = Scale.toAbsolute (clamped s) r.
Proof.
  cbn. unfold clampedToRatio, clampedToAbsolute, Math.max, Math.min.
  split.
  - set (x := Scale.toRatio s v).
    unfold Rmax, Rmin.
    repeat (destruct (Rle_dec _ _); try lra).
  - set (x := Scale.toAbsolute s r).
    set (lo := Scale.min s). set (hi := Scale.max s).
    unfold Rmax, Rmin.
    repeat (destruct (Rle_dec _ _); try lra).
Qed.

(** Clamping leaves alone what is already in range: a ratio within
    [[0, 1]] and an absolute value within the bounds come out as the
    underlying scale gives them. *)
Theorem clamped_unchanged_in_range (s : Scale.t) (v r : R) :
  0 <= Scale.toRatio s v <= 1 ->
  Scale.min s <= Scale.toAbsolute s r <= Scale.max s ->
  Scale.toRatio (clamped s) v = Scale.toRatio s v /\
  Scale.toAbsolute (clamped s) r = Scale.toAbsolute s r.
Proof.
  intros [Hr0 Hr1] [Ha0 Ha1]. cbn.
  unfold clampedToRatio, clampedToAbsolute, Math.max, Math.min.
  split.
  - rewrite Rmin_left by exact Hr1. apply Rmax_right, Hr0.
  - rewrite Rmin_left by exact Ha1. apply Rmax_right, Ha0.
Qed.

Lemma clamped_unchanged_in_range_witness :
  Scale.toRatio (clamped linear) 50 = Scale.toRatio linear 50 /\
  Scale.toAbsolute (clamped linear) (1 / 2) = Scale.toAbsolute linear (1 / 2).
Proof.
  apply (clamped_unchanged_in_range linear 50 (1 / 2)); cbn; lra.
Defined.

(** A clamped linear scale with [min < max] saturates: values at or beyond
    a bound get the ratio of that bound, and ratios at or beyond 0 or 1 get
    the bound they stand for. *)
Theorem clamped_linear_saturates (min max : R) (inverted : option bool)
    (x r : R) :
  min < max ->
  let s := clamped (linearScale min max inverted) in
  (max <= x -> Scale.toRatio s x = if truthy inverted then 0 else 1) /\
  (x <= min -> Scale.toRatio s x = if truthy inverted then 1 else 0) /\
  (1 <= r -> Scale.toAbsolute s r = if truthy inverted then min else max) /\
  (r <= 0 -> Scale.toAbsolute s r = if truthy inverted then max else min).
Proof.
  intros Hlt s. subst s. cbn.
  unfold clampedToRatio, clampedToAbsolute, Math.max, Math.min.
  assert (Hr : 0 < / (max - min)) by (apply Rinv_0_lt_compat; lra).
  assert (H1 : (max - min) * / (max - min) = 1) by (apply Rinv_r; lra).
  unfold Rdiv.
  repeat split; intros Hx; destruct (truthy inverted);
    unfold Rmax, Rmin; repeat (destruct (Rle_dec _ _); try nra).
Qed.

Lemma clamped_linear_saturates_witness :
  Scale.toRatio (clamped (linearScale 0 100 None)) 150 = 1 /\
  Scale.toAbsolute (clamped (linearScale 0 100 (Some true))) (-1) = 100.
Proof.
  assert (Hlt : 0 < 100) by lra.
  split.
  - destruct (clamped_linear_saturates 0 100 None 150 0 Hlt) as [Hhi _].
    apply Hhi. lra.
  - destruct (clamped_linear_saturates 0 100 (Some true) 0 (-1) Hlt)
      as [_ [_ [_ Hlo]]].
    apply Hlo. lra.
Defined.

(** Clamping the target does clamp a conversion, in binary64.  With
    [B.min <= B.max], neither [NaN], [convertScaleTo] and
    [applyDeltaToScale] into [clamped(B)] return a value within the bounds
    of B whenever [B.toAbsolute] of the ratio they reach is not [NaN];
    these are the helpers to which every constructor hands its own
    conversions, as [linearScale] does. *)
Theorem into_clamped_stays_in_bounds (B : Binary64.Scale.t)
    (toRatio : Binary64.ToRatio) (toAbsolute : Binary64.ToAbsolute)
    (v delta c : Binary64.number) :
  Binary64.is_number (Binary64.Scale.min B) ->
  Binary64.is_number (Binary64.Scale.max B) ->
  Binary64.le (Binary64.Scale.min B) (Binary64.Scale.max B) ->
  let target := Binary64.view (Binary64.clamped B) in
  (Binary64.is_number (Binary64.Scale.toAbsolute B (toRatio v)) ->
   Binary64.le (Binary64.Scale.min B)
     (Binary64.convertScaleTo target v toRatio) /\
   Binary64.le (Binary64.convertScaleTo target v toRatio)
     (Binary64.Scale.max B)) /\
  (Binary64.is_number
     (Binary64.Scale.toAbsolute B
        (toRatio (toAbsolute (Binary64.vtoRatio target c) + delta)%float)) ->
   Binary64.le (Binary64.Scale.min B)
     (Binary64.applyDeltaToScale target delta c toAbsolute toRatio) /\
   Binary64.le (Binary64.applyDeltaToScale target delta c toAbsolute toRatio)
     (Binary64.Scale.max B)) /\
  (forall (min max : Binary64.number) (inverted : option bool),
      let A := Binary64.linearScale min max inverted in
      Binary64.Scale.convertTo A target v
        = Binary64.convertScaleTo target v (Binary64.Scale.toRatio A) /\
      Binary64.Scale.applyDeltaTo A target delta c
        = Binary64.applyDeltaToScale target delta c
            (Binary64.Scale.toAbsolute A) (Binary64.Scale.toRatio A)).
Proof.
  intros Hmin Hmax Hle target.
  assert (Hclamp : forall x,
             Binary64.is_number (Binary64.Scale.toAbsolute B x) ->
             Binary64.le (Binary64.Scale.min B)
               (Binary64.vtoAbsolute target x) /\
             Binary64.le (Binary64.vtoAbsolute target x)
               (Binary64.Scale.max B)).
  { intros x Hx. subst target. cbn. unfold Binary64.clampedToAbsolute.
    destruct (b64_clamp_spec (Binary64.Scale.min B) (Binary64.Scale.max B)
                (Binary64.Scale.toAbsolute B x) Hmin Hmax Hx)
      as [_ [Hlo [Hhi _]]].
    split; [exact Hlo | apply Hhi, Hle]. }
  split; [| split].
  - intros Hx. unfold Binary64.convertScaleTo. apply Hclamp, Hx.
  - intros Hx. unfold Binary64.applyDeltaToScale. apply Hclamp, Hx.
  - intros min max inverted A. split; reflexivity.
Qed.

Lemma into_clamped_stays_in_bounds_witness :
  let A := Binary64.linearScale 0%float 10%float None in
  let B := Binary64.linearScale 0%float 100%float None in
  Binary64.le 0%float
    (Binary64.Scale.convertTo A (Binary64.view (Binary64.clamped B)) 50%float)
  /\
  Binary64.le
    (Binary64.Scale.convertTo A (Binary64.view (Binary64.clamped B)) 50%float)
    100%float.
Proof.
  intros A B.
  assert (Hmin : Binary64.is_number (Binary64.Scale.min B))
    by (vm_compute; reflexivity).
  assert (Hmax : Binary64.is_number (Binary64.Scale.max B))
    by (vm_compute; reflexivity).
  assert (Hle : Binary64.le (Binary64.Scale.min B) (Binary64.Scale.max B))
    by (vm_compute; reflexivity).
  destruct (into_clamped_stays_in_bounds B (Binary64.Scale.toRatio A)
              (Binary64.Scale.toAbsolute A) 50%float 0%float 0%float
              Hmin Hmax Hle) as [Hconv _].
  apply Hconv. vm_compute. reflexivity.
Defined.

(** ** More on the rastered linear scale *)

(** The round trip of a rastered scale is the snap: with a range and a
    step that are not zero, [toAbsolute(toRatio(a))] is [a] snapped to the
    step, so that multiples of the step come back unchanged. *)
Theorem rastered_round_trip (min max stepSize : R) (inverted : option bool)
    (a : R) (k : Z) :
  min <> max ->
  stepSize <> 0 ->
  let s := rasteredLinearScale min max stepSize inverted in
  Scale.toAbsolute s (Scale.toRatio s a) = rastered stepSize a /\
  Scale.toAbsolute s (Scale.toRatio s (IZR k * stepSize)) = IZR k * stepSize.
Proof.
  intros Hne Hs s.
  assert (Hrt : forall x, Scale.toAbsolute s (Scale.toRatio s x)
                          = rastered stepSize x).
  { intros x. subst s.
    rewrite rasteredLinearScale_toAbsolute, rasteredLinearScale_toRatio.
    rewrite (linear_toAbsolute_toRatio min max inverted Hne).
    apply rastered_idempotent, Hs. }
  split; [apply Hrt |].
  rewrite Hrt. apply rastered_fixed, Hs.
Qed.

Lemma rastered_round_trip_witness :
  Scale.toAbsolute (rasteredLinearScale 0 10 (1 / 2) None)
    (Scale.toRatio (rasteredLinearScale 0 10 (1 / 2) None) (IZR 7 * (1 / 2)))
  = IZR 7 * (1 / 2).
Proof.
  assert (Hne : 0 <> 10) by lra.
  assert (Hs : 1 / 2 <> 0) by lra.
  exact (proj2 (rastered_round_trip 0 10 (1 / 2) None 0 7 Hne Hs)).
Defined.

(** Rastering moves a value by at most half a step: with [stepSize > 0],
    [toAbsolute] of the rastered scale is within [stepSize / 2] of
    [toAbsolute] of the linear scale, and with a range that is not zero the
    round trip of a value is within [stepSize / 2] of the value. *)
Theorem rastered_error_half_step (min max stepSize : R)
    (inverted : option bool) (r a : R) :
  0 < stepSize ->
  let s := rasteredLinearScale min max stepSize inverted in
  Rabs (Scale.toAbsolute s r
        - Scale.toAbsolute (linearScale min max inverted) r)
    <= stepSize / 2 /\
  (min <> max ->
   Rabs (Scale.toAbsolute s (Scale.toRatio s a) - a) <= stepSize / 2).
Proof.
  intros Hs s. split.
  - subst s. rewrite rasteredLinearScale_toAbsolute.
    apply rastered_nearest, Hs.
  - intros Hne. subst s.
    rewrite rasteredLinearScale_toAbsolute, rasteredLinearScale_toRatio.
    rewrite (linear_toAbsolute_toRatio min max inverted Hne).
    rewrite rastered_idempotent by lra.
    apply rastered_nearest, Hs.
Qed.

Lemma rastered_error_half_step_witness :
  Rabs (Scale.toAbsolute (rasteredLinearScale 0 10 4 None)
          (Scale.toRatio (rasteredLinearScale 0 10 4 None) 5) - 5)
    <= 4 / 2.
Proof.
  assert (Hs : 0 < 4) by lra.
  destruct (rastered_error_half_step 0 10 4 None 0 5 Hs) as [_ Hrt].
  apply Hrt. lra.
Defined.

(** Snapping is monotone: with [stepSize > 0], a larger value is never
    snapped below a smaller one. *)
Theorem rastered_monotone (stepSize a b : R) :
  0 < stepSize ->
  a <= b ->
  rastered stepSize a <= rastered stepSize b.
Proof.
  intros Hs Hab. unfold rastered, Math.round.
  apply Rmult_le_compat_r; [lra |].
  apply IZR_le.
  assert (Hq : a / stepSize + / 2 <= b / stepSize + / 2).
  { assert (Hi : 0 < / stepSize) by (apply Rinv_0_lt_compat, Hs).
    unfold Rdiv. nra. }
  destruct (base_Int_part (a / stepSize + / 2)) as [Ha1 Ha2].
  destruct (base_Int_part (b / stepSize + / 2)) as [Hb1 Hb2].
  apply Z.lt_succ_r. apply lt_IZR. rewrite succ_IZR. lra.
Qed.

Lemma rastered_monotone_witness :
  rastered (1 / 4) (3 / 10) <= rastered (1 / 4) (7 / 10).
Proof.
  apply (rastered_monotone (1 / 4) (3 / 10) (7 / 10)); lra.
Defined.



(** Conversion from a rastered scale sees only the snapped value: with a
    step that is not zero, it is the conversion of the snapped value from
    the underlying linear scale, and a value and its snap are converted
    alike. *)
Theorem rastered_convertTo_snaps (min max stepSize : R)
    (inverted : option bool) (other : Scale.t) (a : R) :
  stepSize <> 0 ->
  let s := rasteredLinearScale min max stepSize inverted in
  Scale.convertTo s (view other) a
    = Scale.convertTo (linearScale min max inverted) (view other)
        (rastered stepSize a) /\
  Scale.convertTo s (view other) (rastered stepSize a)
    = Scale.convertTo s (view other) a.
Proof.
  intros Hs s. split; [reflexivity |].
  change (Scale.toAbsolute other (Scale.toRatio s (rastered stepSize a))
          = Scale.toAbsolute other (Scale.toRatio s a)).
  subst s. rewrite !rasteredLinearScale_toRatio.
  rewrite rastered_idempotent by exact Hs. reflexivity.
Qed.

Lemma rastered_convertTo_snaps_witness :
  Scale.convertTo (rasteredLinearScale 0 10 (1 / 2) None) (view linear)
    (rastered (1 / 2) (7 / 10))
  = Scale.convertTo (rasteredLinearScale 0 10 (1 / 2) None) (view linear)
      (7 / 10).
Proof.
  assert (Hs : 1 / 2 <> 0) by lra.
  exact (proj2 (rastered_convertTo_snaps 0 10 (1 / 2) None linear (7 / 10) Hs)).
Defined.

(** ** More on the logarithmic scale *)

Lemma pow10_pos (y : R) : 0 < Math.pow 10 y.
Proof. unfold Math.pow, Rpower. apply exp_pos. Qed.

Lemma log10_pow10_R (y : R) : Math.log10 (Math.pow 10 y) = y.
Proof.
  unfold Math.log10, Math.pow, Rpower. rewrite ln_exp.
  field. apply Rgt_not_eq, ln_10_pos.
Qed.

Lemma log10_lt (x y : R) : 0 < x -> x < y -> Math.log10 x < Math.log10 y.
Proof.
  intros Hx Hxy. unfold Math.log10, Rdiv.
  apply Rmult_lt_compat_r.
  - apply Rinv_0_lt_compat, ln_10_pos.
  - apply ln_increasing; assumption.
Qed.

Lemma log10_le (x y : R) : 0 < x -> x <= y -> Math.log10 x <= Math.log10 y.
Proof.
  intros Hx [Hlt | ->]; [left; apply log10_lt; assumption | right; reflexivity].
Qed.

(** A product is positive when its factors have the same sign and neither
    is zero. *)
Lemma same_sign_cases (x y : R) :
  0 < x * y -> (0 < x /\ 0 < y) \/ (x < 0 /\ y < 0).
Proof.
  intros H.
  destruct (Rtotal_order x 0) as [Hx | [Hx | Hx]];
    destruct (Rtotal_order y 0) as [Hy | [Hy | Hy]];
    try (subst; rewrite ?Rmult_0_l, ?Rmult_0_r in H; lra);
    try (right; split; assumption);
    try (left; split; assumption);
    exfalso; nra.
Qed.

Lemma log_toAbsolute_toRatio_pos (min max : R) (inverted : option bool) (a : R) :
  0 < min -> 0 < max -> min <> max -> 0 < a ->
  Scale.toAbsolute (logarithmicScale min max inverted)
    (Scale.toRatio (logarithmicScale min max inverted) a) = a.
Proof.
  intros Hmin Hmax Hne Ha.
  pose proof (log10_range_nonzero min max Hmin Hmax Hne) as Hr.
  rewrite log_toAbsolute_pos, log_toRatio_pos by exact Hmin. cbv zeta.
  destruct (truthy inverted);
    (transitivity (Math.pow 10 (Math.log10 a));
     [f_equal; field; exact Hr | apply pow10_log10, Ha]).
Qed.

Lemma log_toAbsolute_toRatio_neg (min max : R) (inverted : option bool) (a : R) :
  min < 0 -> max < 0 -> min <> max -> a < 0 ->
  Scale.toAbsolute (logarithmicScale min max inverted)
    (Scale.toRatio (logarithmicScale min max inverted) a) = a.
Proof.
  intros Hmin Hmax Hne Ha.
  assert (Hr : Math.log10 (- min) - Math.log10 (- max) <> 0)
    by (apply log10_range_nonzero; lra).
  rewrite log_toAbsolute_neg, log_toRatio_neg by exact Hmin. cbv zeta.
  destruct (truthy inverted);
    (transitivity (- Math.pow 10 (Math.log10 (- a)));
     [f_equal; f_equal; field; exact Hr
     | rewrite pow10_log10 by lra; ring]).
Qed.

Lemma log_toRatio_toAbsolute_pos (min max : R) (inverted : option bool) (r : R) :
  0 < min -> 0 < max -> min <> max ->
  Scale.toRatio (logarithmicScale min max inverted)
    (Scale.toAbsolute (logarithmicScale min max inverted) r) = r.
Proof.
  intros Hmin Hmax Hne.
  pose proof (log10_range_nonzero min max Hmin Hmax Hne) as Hr.
  rewrite log_toRatio_pos, log_toAbsolute_pos by exact Hmin. cbv zeta.
  destruct (truthy inverted); rewrite log10_pow10_R; field; exact Hr.
Qed.

Lemma log_toRatio_toAbsolute_neg (min max : R) (inverted : option bool) (r : R) :
  min < 0 -> max < 0 -> min <> max ->
  Scale.toRatio (logarithmicScale min max inverted)
    (Scale.toAbsolute (logarithmicScale min max inverted) r) = r.
Proof.
  intros Hmin Hmax Hne.
  assert (Hr : Math.log10 (- min) - Math.log10 (- max) <> 0)
    by (apply log10_range_nonzero; lra).
  rewrite log_toRatio_neg, log_toAbsolute_neg by exact Hmin. cbv zeta.
  destruct (truthy inverted); rewrite Ropp_involutive, log10_pow10_R;
    field; exact Hr.
Qed.

Lemma log_toAbsolute_toRatio (min max : R) (inverted : option bool) (a : R) :
  0 < min * max -> min <> max -> 0 < min * a ->
  Scale.toAbsolute (logarithmicScale min max inverted)
    (Scale.toRatio (logarithmicScale min max inverted) a) = a.
Proof.
  intros Hsame Hne Ha.
  destruct (same_sign_cases min max Hsame) as [[Hmin Hmax] | [Hmin Hmax]].
  - apply log_toAbsolute_toRatio_pos; trivial. nra.
  - apply log_toAbsolute_toRatio_neg; trivial. nra.
Qed.

Lemma log_toRatio_toAbsolute (min max : R) (inverted : option bool) (r : R) :
  0 < min * max -> min <> max ->
  Scale.toRatio (logarithmicScale min max inverted)
    (Scale.toAbsolute (logarithmicScale min max inverted) r) = r.
Proof.
  intros Hsame Hne.
  destruct (same_sign_cases min max Hsame) as [[Hmin Hmax] | [Hmin Hmax]].
  - apply log_toRatio_toAbsolute_pos; trivial.
  - apply log_toRatio_toAbsolute_neg; trivial.
Qed.

(** Round trip of the logarithmic scale: with bounds of the same sign,
    neither zero, and different from each other, a value of that sign goes
    to its ratio and back unchanged. *)
Theorem log_round_trip (min max : R) (inverted : option bool) (a : R) :
  0 < min * max ->
  min <> max ->
  0 < min * a ->
  Scale.toAbsolute (logarithmicScale min max inverted)
    (Scale.toRatio (logarithmicScale min max inverted) a) = a.
Proof. apply log_toAbsolute_toRatio. Qed.

Lemma log_round_trip_witness :
  Scale.toAbsolute (logarithmicScale (-1000) (-1) (Some true))
    (Scale.toRatio (logarithmicScale (-1000) (-1) (Some true)) (-20)) = -20.
Proof.
  apply (log_round_trip (-1000) (-1) (Some true) (-20)); lra.
Defined.

(** The other round trip of the logarithmic scale: with bounds of the same
    sign, neither zero, and different from each other, every ratio goes to
    its absolute value and back unchanged. *)
Theorem log_ratio_round_trip (min max : R) (inverted : option bool) (r : R) :
  0 < min * max ->
  min <> max ->
  Scale.toRatio (logarithmicScale min max inverted)
    (Scale.toAbsolute (logarithmicScale min max inverted) r) = r.
Proof. apply log_toRatio_toAbsolute. Qed.

Lemma log_ratio_round_trip_witness :
  Scale.toRatio (logarithmicScale 1 1000 None)
    (Scale.toAbsolute (logarithmicScale 1 1000 None) 2) = 2.
Proof.
  apply (log_ratio_round_trip 1 1000 None 2); lra.
Defined.

(** Conversion between a linear and a logarithmic scale goes there and
    back: with a linear range that is not zero and logarithmic bounds of the
    same sign, neither zero and different from each other, every value
    comes back from the logarithmic scale unchanged, and every value of the
    sign of the logarithmic bounds comes back from the linear one. *)
Theorem convert_linear_log_round_trip (minA maxA : R) (invA : option bool)
    (minB maxB : R) (invB : option bool) (v a : R) :
  minA <> maxA ->
  0 < minB * maxB ->
  minB <> maxB ->
  0 < minB * a ->
  let A := linearScale minA maxA invA in
  let B := logarithmicScale minB maxB invB in
  Scale.convertTo B (view A) (Scale.convertTo A (view B) v) = v /\
  Scale.convertTo A (view B) (Scale.convertTo B (view A) a) = a.
Proof.
  intros HA Hsame HB Ha A B. split.
  - change (Scale.toAbsolute A
              (Scale.toRatio B (Scale.toAbsolute B (Scale.toRatio A v))) = v).
    subst A B. rewrite log_toRatio_toAbsolute by assumption.
    apply linear_toAbsolute_toRatio, HA.
  - change (Scale.toAbsolute B
              (Scale.toRatio A (Scale.toAbsolute A (Scale.toRatio B a))) = a).
    subst A B. rewrite (linear_toRatio_toAbsolute minA maxA invA HA).
    apply log_toAbsolute_toRatio; assumption.
Qed.

Lemma convert_linear_log_round_trip_witness :
  Scale.convertTo logarithmic (view linear)
    (Scale.convertTo linear (view logarithmic) 25) = 25 /\
  Scale.convertTo linear (view logarithmic)
    (Scale.convertTo logarithmic (view linear) (-10)) = -10.
Proof.
  apply (convert_linear_log_round_trip 0 100 None (-1000) (-1) None 25 (-10));
    lra.
Defined.

(** A logarithmic scale never crosses zero: with bounds of the same sign,
    neither zero, [toAbsolute] of any ratio has the sign of the bounds. *)
Theorem log_toAbsolute_keeps_sign (min max : R) (inverted : option bool)
    (r : R) :
  0 < min * max ->
  0 < min * Scale.toAbsolute (logarithmicScale min max inverted) r.
Proof.
  intros Hsame.
  destruct (same_sign_cases min max Hsame) as [[Hmin Hmax] | [Hmin Hmax]].
  - rewrite log_toAbsolute_pos by exact Hmin. cbv zeta.
    destruct (truthy inverted); apply Rmult_lt_0_compat;
      solve [exact Hmin | apply pow10_pos].
  - rewrite log_toAbsolute_neg by exact Hmin. cbv zeta.
    destruct (truthy inverted).
    + pose proof (pow10_pos (Math.log10 (- max)
                  + (1 - r) * (Math.log10 (- min) - Math.log10 (- max)))).
      nra.
    + pose proof (pow10_pos (Math.log10 (- max)
                  + r * (Math.log10 (- min) - Math.log10 (- max)))).
      nra.
Qed.

Lemma log_toAbsolute_keeps_sign_witness :
  0 < -1000 * Scale.toAbsolute logarithmic 7.
Proof.
  apply (log_toAbsolute_keeps_sign (-1000) (-1) None 7). lra.
Defined.

(** Ratios 0 and 1 of a logarithmic scale are its bounds.  Over positive
    numbers ratio 0 is [min] and ratio 1 is [max]; over negative numbers
    ratio 0 is [max] and ratio 1 is [min]; inverted, the other way round. *)
Theorem log_toAbsolute_ends (min max : R) (inverted : option bool) :
  0 < min * max ->
  let s := logarithmicScale min max inverted in
  (0 < min ->
   Scale.toAbsolute s 0 = (if truthy inverted then max else min) /\
   Scale.toAbsolute s 1 = (if truthy inverted then min else max)) /\
  (min < 0 ->
   Scale.toAbsolute s 0 = (if truthy inverted then min else max) /\
   Scale.toAbsolute s 1 = (if truthy inverted then max else min)).
Proof.
  intros Hsame s. subst s. split; intros Hmin.
  - assert (Hmax : 0 < max) by nra.
    rewrite !log_toAbsolute_pos by exact Hmin. cbv zeta.
    destruct (truthy inverted); split.
    + rewrite <- (pow10_log10 max Hmax) at 2. f_equal. ring.
    + rewrite <- (pow10_log10 min Hmin) at 3. f_equal. ring.
    + rewrite <- (pow10_log10 min Hmin) at 3. f_equal. ring.
    + rewrite <- (pow10_log10 max Hmax) at 2. f_equal. ring.
  - assert (Hmax : max < 0) by nra.
    assert (Hmin' : 0 < - min) by lra.
    assert (Hmax' : 0 < - max) by lra.
    rewrite !log_toAbsolute_neg by exact Hmin. cbv zeta.
    destruct (truthy inverted); split.
    + transitivity (- Math.pow 10 (Math.log10 (- min)));
        [f_equal; f_equal; ring | rewrite pow10_log10 by exact Hmin'; ring].
    + transitivity (- Math.pow 10 (Math.log10 (- max)));
        [f_equal; f_equal; ring | rewrite pow10_log10 by exact Hmax'; ring].
    + transitivity (- Math.pow 10 (Math.log10 (- max)));
        [f_equal; f_equal; ring | rewrite pow10_log10 by exact Hmax'; ring].
    + transitivity (- Math.pow 10 (Math.log10 (- min)));
        [f_equal; f_equal; ring | rewrite pow10_log10 by exact Hmin'; ring].
Qed.

Lemma log_toAbsolute_ends_witness :
  Scale.toAbsolute (logarithmicScale (-1000) (-1) None) 0 = -1 /\
  Scale.toAbsolute (logarithmicScale (-1000) (-1) None) 1 = -1000.
Proof.
  assert (Hsame : 0 < -1000 * -1) by lra.
  destruct (log_toAbsolute_ends (-1000) (-1) None Hsame) as [_ Hneg].
  apply Hneg. lra.
Defined.

Lemma pow10_plus (x y : R) : Math.pow 10 (x + y) = Math.pow 10 x * Math.pow 10 y.
Proof. unfold Math.pow. apply Rpower_plus. Qed.

Lemma pow10_le (x y : R) : x <= y -> Math.pow 10 x <= Math.pow 10 y.
Proof. intros Hxy. unfold Math.pow. apply Rle_Rpower; lra. Qed.

Lemma pow10_between (x y z : R) :
  0 < x -> 0 < z ->
  Math.log10 x <= y <= Math.log10 z ->
  x <= Math.pow 10 y <= z.
Proof.
  intros Hx Hz [Hlo Hhi]. split.
  - apply Rle_trans with (Math.pow 10 (Math.log10 x)).
    + right. symmetry. apply pow10_log10, Hx.
    + apply pow10_le, Hlo.
  - apply Rle_trans with (Math.pow 10 (Math.log10 z)).
    + apply pow10_le, Hhi.
    + right. apply pow10_log10, Hz.
Qed.

Lemma pow10_half_sum (x y : R) :
  0 < x -> 0 < y ->
  Math.pow 10 (Math.log10 x + 1 / 2 * (Math.log10 y - Math.log10 x))
  = sqrt (x * y).
Proof.
  intros Hx Hy.
  rewrite <- Rpower_sqrt by (apply Rmult_lt_0_compat; assumption).
  unfold Math.pow, Math.log10, Rpower.
  rewrite ln_mult by assumption.
  f_equal. field. apply Rgt_not_eq, ln_10_pos.
Qed.

(** The middle of a logarithmic scale is the geometric mean of its bounds:
    ratio 1/2 is [sqrt(min * max)], with the sign of the bounds, inverted or
    not. *)
Theorem log_midpoint_geometric_mean (min max : R) (inverted : option bool) :
  0 < min * max ->
  let s := logarithmicScale min max inverted in
  (0 < min -> Scale.toAbsolute s (1 / 2) = sqrt (min * max)) /\
  (min < 0 -> Scale.toAbsolute s (1 / 2) = - sqrt (min * max)).
Proof.
  intros Hsame s. subst s. split; intros Hmin.
  - assert (Hmax : 0 < max) by nra.
    rewrite log_toAbsolute_pos by exact Hmin. cbv zeta.
    replace (1 - 1 / 2) with (1 / 2) by field.
    destruct (truthy inverted); apply pow10_half_sum; assumption.
  - assert (Hmax : max < 0) by nra.
    rewrite log_toAbsolute_neg by exact Hmin. cbv zeta.
    replace (1 - 1 / 2) with (1 / 2) by field.
    replace (min * max) with (- max * - min) by ring.
    destruct (truthy inverted); f_equal; apply pow10_half_sum; lra.
Qed.

Lemma log_midpoint_geometric_mean_witness :
  Scale.toAbsolute (logarithmicScale 1 100 None) (1 / 2) = sqrt (1 * 100).
Proof.
  assert (Hsame : 0 < 1 * 100) by lra.
  destruct (log_midpoint_geometric_mean 1 100 None Hsame) as [Hpos _].
  apply Hpos. lra.
Defined.

(** Equal steps of ratio are equal factors: on a logarithmic scale with
    bounds of the same sign, neither zero, the factor between the values at
    ratios [r] and [r + d] does not depend on [r]. *)
Theorem log_equal_steps_equal_factors (min max : R) (inverted : option bool)
    (r1 r2 d : R) :
  0 < min * max ->
  let s := logarithmicScale min max inverted in
  Scale.toAbsolute s (r1 + d) * Scale.toAbsolute s r2
  = Scale.toAbsolute s r1 * Scale.toAbsolute s (r2 + d).
Proof.
  intros Hsame s. subst s.
  destruct (same_sign_cases min max Hsame) as [[Hmin Hmax] | [Hmin Hmax]].
  - rewrite !log_toAbsolute_pos by exact Hmin. cbv zeta.
    destruct (truthy inverted); rewrite <- !pow10_plus; f_equal; ring.
  - rewrite !log_toAbsolute_neg by exact Hmin. cbv zeta.
    destruct (truthy inverted);
      rewrite !Rmult_opp_opp, <- !pow10_plus; f_equal; ring.
Qed.

Lemma log_equal_steps_equal_factors_witness :
  Scale.toAbsolute logarithmic (0 + 1 / 4) * Scale.toAbsolute logarithmic (1 / 2)
  = Scale.toAbsolute logarithmic 0 * Scale.toAbsolute logarithmic (1 / 2 + 1 / 4).
Proof.
  apply (log_equal_steps_equal_factors (-1000) (-1) None 0 (1 / 2) (1 / 4)).
  lra.
Defined.

(** On a logarithmic scale with [min < max] of the same sign, neither zero,
    a value within the bounds has its ratio within [[0, 1]], and a ratio
    within [[0, 1]] has its value within the bounds. *)
Theorem log_in_range (min max : R) (inverted : option bool) (a r : R) :
  0 < min * max ->
  min < max ->
  let s := logarithmicScale min max inverted in
  (min <= a <= max -> 0 <= Scale.toRatio s a <= 1) /\
  (0 <= r <= 1 -> min <= Scale.toAbsolute s r <= max).
Proof.
  intros Hsame Hlt s. subst s.
  destruct (same_sign_cases min max Hsame) as [[Hmin Hmax] | [Hmin Hmax]].
  - assert (HL : 0 < Math.log10 max - Math.log10 min)
      by (pose proof (log10_lt min max Hmin Hlt); lra).
    split.
    + intros [Ha1 Ha2].
      assert (H1 : Math.log10 min <= Math.log10 a) by (apply log10_le; lra).
      assert (H2 : Math.log10 a <= Math.log10 max) by (apply log10_le; lra).
      rewrite log_toRatio_pos by exact Hmin. cbv zeta.
      assert (Hi : 0 < / (Math.log10 max - Math.log10 min))
        by (apply Rinv_0_lt_compat, HL).
      assert (Hone : (Math.log10 max - Math.log10 min)
                     * / (Math.log10 max - Math.log10 min) = 1)
        by (apply Rinv_r; lra).
      unfold Rdiv. destruct (truthy inverted); split; nra.
    + intros [Hr1 Hr2].
      rewrite log_toAbsolute_pos by exact Hmin. cbv zeta.
      destruct (truthy inverted); apply pow10_between; trivial; split; nra.
  - assert (HL : 0 < Math.log10 (- min) - Math.log10 (- max))
      by (assert (Hm : 0 < - max) by lra;
          assert (Hl : - max < - min) by lra;
          pose proof (log10_lt (- max) (- min) Hm Hl); lra).
    split.
    + intros [Ha1 Ha2].
      assert (H1 : Math.log10 (- max) <= Math.log10 (- a))
        by (apply log10_le; lra).
      assert (H2 : Math.log10 (- a) <= Math.log10 (- min))
        by (apply log10_le; lra).
      rewrite log_toRatio_neg by exact Hmin. cbv zeta.
      assert (Hi : 0 < / (Math.log10 (- min) - Math.log10 (- max)))
        by (apply Rinv_0_lt_compat, HL).
      assert (Hone : (Math.log10 (- min) - Math.log10 (- max))
                     * / (Math.log10 (- min) - Math.log10 (- max)) = 1)
        by (apply Rinv_r; lra).
      unfold Rdiv. destruct (truthy inverted); split; nra.
    + intros [Hr1 Hr2].
      rewrite log_toAbsolute_neg by exact Hmin. cbv zeta.
      assert (Hb : forall y,
                 Math.log10 (- max) <= y <= Math.log10 (- min) ->
                 min <= - Math.pow 10 y <= max).
      { intros y Hy.
        destruct (pow10_between (- max) y (- min)) as [Hlo Hhi];
          [lra | lra | exact Hy | lra]. }
      destruct (truthy inverted); apply Hb; split; nra.
Qed.

Lemma log_in_range_witness :
  0 <= Scale.toRatio logarithmic (-10) <= 1 /\
  -1000 <= Scale.toAbsolute logarithmic (1 / 3) <= -1.
Proof.
  assert (Hsame : 0 < -1000 * -1) by lra.
  assert (Hlt : -1000 < -1) by lra.
  destruct (log_in_range (-1000) (-1) None (-10) (1 / 3) Hsame Hlt)
    as [Hratio Habs].
  split; [apply Hratio | apply Habs]; lra.
Defined.

(** On a logarithmic scale too the [inverted] flag is the exchange of the
    two bounds: with bounds of the same sign, neither zero, and different
    from each other, the inverted scale from [min] to [max] converts as the
    plain one from [max] to [min], in both directions. *)
Theorem log_inverted_swaps_bounds (min max : R) (a r : R) :
  0 < min * max ->
  min <> max ->
  0 < min * a ->
  Scale.toRatio (logarithmicScale min max (Some true)) a
    = Scale.toRatio (logarithmicScale max min None) a /\
  Scale.toAbsolute (logarithmicScale min max (Some true)) r
    = Scale.toAbsolute (logarithmicScale max min None) r.
Proof.
  intros Hsame Hne Ha.
  destruct (same_sign_cases min max Hsame) as [[Hmin Hmax] | [Hmin Hmax]].
  - pose proof (log10_range_nonzero min max Hmin Hmax Hne) as Hr.
    rewrite (log_toRatio_pos min max) by exact Hmin.
    rewrite (log_toRatio_pos max min) by exact Hmax.
    rewrite (log_toAbsolute_pos min max) by exact Hmin.
    rewrite (log_toAbsolute_pos max min) by exact Hmax.
    cbn [truthy]. cbv zeta. split.
    + field. split; lra.
    + f_equal. ring.
  - assert (Hr : Math.log10 (- min) - Math.log10 (- max) <> 0)
      by (apply log10_range_nonzero; lra).
    rewrite (log_toRatio_neg min max) by exact Hmin.
    rewrite (log_toRatio_neg max min) by exact Hmax.
    rewrite (log_toAbsolute_neg min max) by exact Hmin.
    rewrite (log_toAbsolute_neg max min) by exact Hmax.
    cbn [truthy]. cbv zeta. split.
    + field. split; lra.
    + f_equal. f_equal. ring.
Qed.

Lemma log_inverted_swaps_bounds_witness :
  Scale.toRatio (logarithmicScale 1 1000 (Some true)) 10
    = Scale.toRatio (logarithmicScale 1000 1 None) 10 /\
  Scale.toAbsolute (logarithmicScale 1 1000 (Some true)) (1 / 3)
    = Scale.toAbsolute (logarithmicScale 1000 1 None) (1 / 3).
Proof.
  apply (log_inverted_swaps_bounds 1 1000 10 (1 / 3)); lra.
Defined.

(** Direction of the logarithmic scale.  With [min < max] and not inverted,
    the ratio grows with the value over positive numbers and falls with it
    over negative numbers (it grows with the magnitude); inverted, the
    other way round. *)
Theorem log_toRatio_direction (min max : R) (inverted : option bool)
    (a b : R) :
  0 < min * max ->
  min < max ->
  0 < min * a ->
  a < b ->
  0 < min * b ->
  let s := logarithmicScale min max inverted in
  (0 < min ->
   if truthy inverted then Scale.toRatio s b < Scale.toRatio s a
   else Scale.toRatio s a < Scale.toRatio s b) /\
  (min < 0 ->
   if truthy inverted then Scale.toRatio s a < Scale.toRatio s b
   else Scale.toRatio s b < Scale.toRatio s a).
Proof.
  intros Hsame Hlt Ha Hab Hb s. subst s. split; intros Hmin.
  - assert (Hmax : 0 < max) by nra.
    assert (Ha' : 0 < a) by nra.
    pose proof (log10_lt min max Hmin Hlt) as HL.
    pose proof (log10_lt a b Ha' Hab) as Hlog.
    assert (Hi : 0 < / (Math.log10 max - Math.log10 min))
      by (apply Rinv_0_lt_compat; lra).
    rewrite !log_toRatio_pos by exact Hmin. cbv zeta.
    unfold Rdiv. destruct (truthy inverted); nra.
  - assert (Hmax : max < 0) by nra.
    assert (Hb' : 0 < - b) by nra.
    assert (Hm : 0 < - max) by lra.
    assert (Hl : - max < - min) by lra.
    assert (Hba : - b < - a) by lra.
    pose proof (log10_lt (- max) (- min) Hm Hl) as HL.
    pose proof (log10_lt (- b) (- a) Hb' Hba) as Hlog.
    assert (Hi : 0 < / (Math.log10 (- min) - Math.log10 (- max)))
      by (apply Rinv_0_lt_compat; lra).
    rewrite !log_toRatio_neg by exact Hmin. cbv zeta.
    unfold Rdiv. destruct (truthy inverted); nra.
Qed.

Lemma log_toRatio_direction_witness :
  Scale.toRatio logarithmic (-10) < Scale.toRatio logarithmic (-100).
Proof.
  assert (H1 : 0 < -1000 * -1) by lra.
  assert (H2 : -1000 < -1) by lra.
  assert (H3 : 0 < -1000 * -100) by lra.
  assert (H4 : -100 < -10) by lra.
  assert (H5 : 0 < -1000 * -10) by lra.
  destruct (log_toRatio_direction (-1000) (-1) None (-100) (-10)
              H1 H2 H3 H4 H5) as [_ Hneg].
  apply Hneg. lra.
Defined.

(** ** The example script *)

Lemma toLog_eq (v : R) : toLog v = - Math.pow 10 (3 * (v / 100)).
Proof.
  unfold toLog. rewrite linear_convertTo. cbn [view vtoAbsolute].
  apply logarithmic_toAbsolute.
Qed.

Lemma fromLog_eq (a : R) : fromLog a = Math.log10 (- a) / 3 * 100.
Proof.
  unfold fromLog, logarithmic.
  change (Scale.toAbsolute linear
            (Scale.toRatio (logarithmicScale (-1000) (-1) None) a)
          = Math.log10 (- a) / 3 * 100).
  rewrite log_toRatio_neg by lra. cbn [truthy]. cbv zeta.
  replace (- -1) with 1 by ring. replace (- -1000) with 1000 by ring.
  rewrite log10_1, log10_1000. unfold linear. cbn. field.
Qed.

(** The two conversions of the example script undo each other: [fromLog]
    after [toLog] on every number, [toLog] after [fromLog] on every
    negative number. *)
Theorem example_round_trip (v a : R) :
  a < 0 ->
  fromLog (toLog v) = v /\ toLog (fromLog a) = a.
Proof.
  intros Ha. split.
  - rewrite fromLog_eq, toLog_eq, Ropp_involutive, log10_pow10_R. field.
  - rewrite toLog_eq, fromLog_eq.
    replace (3 * (Math.log10 (- a) / 3 * 100 / 100)) with (Math.log10 (- a))
      by field.
    rewrite pow10_log10 by lra. ring.
Qed.

Lemma example_round_trip_witness :
  fromLog (toLog 75) = 75 /\ toLog (fromLog (-100)) = -100.
Proof.
  apply (example_round_trip 75 (-100)). lra.
Defined.

(** [toLog] of the example script is strictly decreasing: a larger linear
    value is converted to a more negative one. *)
Theorem example_toLog_decreasing (v w : R) :
  v < w -> toLog w < toLog v.
Proof.
  intros Hvw. rewrite !toLog_eq.
  apply Ropp_lt_contravar. unfold Math.pow.
  apply Rpower_lt; lra.
Qed.

Lemma example_toLog_decreasing_witness : toLog 75 < toLog 25.
Proof.
  apply (example_toLog_decreasing 25 75). lra.
Defined.

(** [fromLog] of the example script sends minus the [n]-th power of ten to
    [100 * n / 3]: -1 to 0, -10 to a third of 100, -100 to two thirds and
    -1000 to 100. *)
Theorem example_fromLog_powers_of_ten (n : nat) :
  fromLog (- 10 ^ n) = 100 * INR n / 3.
Proof.
  rewrite fromLog_eq, Ropp_involutive, log10_pow10. field.
Qed.
